(** * homebridge-shelly: the power-meter abilities

    A shallow embedding of [abilities/power-meter.js]: the two abilities
    [PowerMeterAbility] (live power, current and voltage readings) and
    [PowerConsumptionAbility] (consumption history), together with the
    part of the host object model they drive: the device and its event
    emitter, the platform accessory and its services, and the history
    service. *)

From Stdlib Require Import QArith Qcanon Qround ZArith Lia.
From Stdlib Require Import Sorted.
From stdpp Require Import base strings list gmap numbers.

(** ** JavaScript numbers and values *)

(** A JavaScript number is NaN, an infinity, or a finite value.  Finite
    values are kept as canonical rationals: the code only compares and
    selects numbers, it never computes with them, so no rounding takes
    place.  The sign of zero is not tracked ([Math.max] and [Math.min]
    are the only operations that could see it, and both clamps return +0
    on either zero). *)
Inductive number :=
  | NaN
  | NegInfinity
  | Finite (q : Qc)
  | Infinity.

(** A device property holds a number, or reads as [undefined] when the
    device has no such property. *)
Inductive value :=
  | undefined
  | Num (n : number).

Definition ToNumber (v : value) : number :=
  match v with
  | undefined => NaN
  | Num n => n
  end.

(** [a < b] on numbers; false as soon as one side is NaN. *)
Definition num_ltb (a b : number) : bool :=
  match a, b with
  | NaN, _ | _, NaN => false
  | NegInfinity, NegInfinity => false
  | NegInfinity, _ => true
  | Finite _, NegInfinity => false
  | Finite x, Finite y => match (x ?= y)%Qc with Lt => true | _ => false end
  | Finite _, Infinity => true
  | Infinity, _ => false
  end.

(** [Math.max(a, b)] and [Math.min(a, b)]: NaN when an argument is NaN,
    otherwise the larger (smaller) argument. *)
Definition Math_max (a b : number) : number :=
  match a, b with
  | NaN, _ | _, NaN => NaN
  | _, _ => if num_ltb a b then b else a
  end.

Definition Math_min (a b : number) : number :=
  match a, b with
  | NaN, _ | _, NaN => NaN
  | _, _ => if num_ltb b a then b else a
  end.

Definition num_of_Z (z : Z) : number := Finite (Qc_of_Z z).

(** [Math.round(x)]: the integer nearest to [x], ties going up.  It is
    only applied to [new Date().valueOf() / 1000], the quotient of an
    integral millisecond count by a constant, so it is given on exact
    rationals and returns the integer.  (A [Date] value is at most
    8.64e15 in magnitude; there the double quotient lies on the same side
    of every half-integer as the exact one, because half-integers are
    representable and the rounding error stays below 1/2000, while the
    exact quotient is a half-integer or at least 1/1000 away from one.) *)
Definition Math_round (x : Q) : Z := Qfloor (x + (1 # 2)).

(** ** The device and its event emitter *)

(** The functions that the abilities pass to [device.on].  Each method is
    one function object shared through the prototype; [foreign] stands for
    the listeners of other parts of the plugin. *)
Inductive handler :=
  | PowerMeter_consumptionChangeHandler
  | PowerMeter_electricCurrentChangeHandler
  | PowerMeter_voltageChangeHandler
  | PowerConsumption_consumptionChangeHandler
  | foreign (n : nat).

Global Instance handler_eq_dec : EqDecision handler.
Proof. solve_decision. Defined.

(** One registration in the emitter: event name, function, and the
    context object (by identity) the function is called on. *)
Record listener := Listener {
  l_event : string;
  l_fn : handler;
  l_context : nat;
  l_once : bool;
}.

Global Instance listener_eq_dec : EqDecision listener.
Proof. solve_decision. Defined.

Record Device := mkDevice {
  d_type : string;
  d_id : string;
  d_props : gmap string value;
  d_events : list listener;
}.

(** [device[name]] *)
Definition get (d : Device) (name : string) : value :=
  default undefined (d_props d !! name).

(** [device.on(event, fn, context)]: the registration is appended. *)
Definition on (event : string) (fn : handler) (context : nat)
    (d : Device) : Device :=
  mkDevice (d_type d) (d_id d) (d_props d)
    (d_events d ++ [Listener event fn context false]).

(** The test of [removeListener(event, fn, context)]: same event, same
    function, same context; the [once] flag is not looked at when the
    fourth argument is left out. *)
Definition matches (event : string) (fn : handler) (context : nat)
    (l : listener) : bool :=
  bool_decide (l_event l = event) && bool_decide (l_fn l = fn)
  && bool_decide (l_context l = context).

(** [device.removeListener(event, fn, context)]: every registration that
    matches is dropped, the others keep their order. *)
Definition removeListener (event : string) (fn : handler) (context : nat)
    (d : Device) : Device :=
  mkDevice (d_type d) (d_id d) (d_props d)
    (List.filter (fun l => negb (matches event fn context l)) (d_events d)).

(** ['change:' + name] *)
Definition change (name : string) : string := "change:" +:+ name.

(** A property name given to a constructor: a string, or [null] when it
    was left out. *)
Definition property := option string.

(** [if (p)]: [null] and the empty string are falsy. *)
Definition truthy (p : property) : bool :=
  match p with
  | None => false
  | Some s => negb (bool_decide (s = ""))
  end.

(** The key that [device[p]] and ['change:' + p] use for [p]. *)
Definition ToString (p : property) : string :=
  match p with
  | None => "null"
  | Some s => s
  end.

(** Whether [l] carries the event, function and context of [r], which is
    what [removeListener] called with the arguments of [r] looks for. *)
Definition same_registration (r l : listener) : bool :=
  matches (l_event r) (l_fn r) (l_context r) l.

Definition registered_by (regs : list listener) (l : listener) : bool :=
  existsb (fun r => same_registration r l) regs.

(** ** Services, the platform accessory and the host *)

Inductive characteristic :=
  | ConsumptionCharacteristic
  | ElectricCurrentCharacteristic
  | VoltageCharacteristic
  | TotalConsumptionCharacteristic.

Global Instance characteristic_eq_dec : EqDecision characteristic.
Proof. solve_decision. Defined.

(** The service types, told apart by their UUID. *)
Inductive service_type :=
  | PowerMeterService
  | FakeGatoHistoryService
  | OtherService (uuid : string).

Global Instance service_type_eq_dec : EqDecision service_type.
Proof. solve_decision. Defined.

(** A service object: its identity, its type, its subtype, and the values
    written to its characteristics, oldest first. *)
Record Service := mkService {
  s_oid : nat;
  UUID : service_type;
  subtype : option string;
  written : list (characteristic * value);
}.

(** [service.setCharacteristic(c, v)] and
    [service.getCharacteristic(c).setValue(v)]: one write of [v] to [c]. *)
Definition setCharacteristic (c : characteristic) (v : value)
    (s : Service) : Service :=
  mkService (s_oid s) (UUID s) (subtype s) (written s ++ [(c, v)]).

Inductive log_level := debug | info.

Inductive log_arg :=
  | Text (s : string)
  | Val (v : value).

Record log_line := LogLine { level : log_level; args : list log_arg }.

(** The options object handed to the history-service constructor (its
    [log] entry is the accessory's log). *)
Record FakeGatoOptions := mkOptions {
  storage : string;
  path : string;
  filename : string;
  minutes : Z;
}.

(** The accessory an ability is set up on, with the host around it:
    [accessory.device], [accessory.log], the service array of
    [accessory.platformAccessory], the value of
    [homebridge.user.storagePath()], the arguments of every
    [new FakeGatoHistoryService(...)] so far, and the next free object
    identity. *)
Record World := mkWorld {
  device : Device;
  log : list log_line;
  services : list Service;
  storagePath : string;
  constructed : list (string * FakeGatoOptions);
  next_oid : nat;
}.

Definition with_device (d : Device) (w : World) : World :=
  mkWorld d (log w) (services w) (storagePath w) (constructed w) (next_oid w).

Definition with_services (l : list Service) (w : World) : World :=
  mkWorld (device w) (log w) l (storagePath w) (constructed w) (next_oid w).

(** The world with the device's registrations replaced by [l]. *)
Definition with_events (l : list listener) (w : World) : World :=
  with_device
    (mkDevice (d_type (device w)) (d_id (device w)) (d_props (device w)) l) w.

(** [log.debug(...)] and [log.info(...)] *)
Definition log_call (lv : log_level) (msg : list log_arg) (w : World) : World :=
  mkWorld (device w) (log w ++ [LogLine lv msg]) (services w) (storagePath w)
    (constructed w) (next_oid w).

(** The line [log.debug(name, 'of device', type, id, 'changed to', v)]
    that opens every change handler. *)
Definition log_change (name : string) (newValue : value) (w : World) : World :=
  log_call debug
    [Text name; Text "of device"; Text (d_type (device w));
     Text (d_id (device w)); Text "changed to"; Val newValue] w.

(** [new Service(...)] of type [ty]: a fresh object, nothing written yet. *)
Definition new_Service (ty : service_type) (sub : option string)
    (w : World) : Service * World :=
  (mkService (next_oid w) ty sub [],
   mkWorld (device w) (log w) (services w) (storagePath w) (constructed w)
     (S (next_oid w))).

Definition has_type (ty : service_type) (s : Service) : bool :=
  bool_decide (UUID s = ty).

(** [platformAccessory.getService(ty)]: the first service of that type. *)
Definition getService (ty : service_type) (w : World) : option Service :=
  List.find (has_type ty) (services w).

(** [platformAccessory.addService(s)] *)
Definition addService (s : Service) (w : World) : World :=
  with_services (services w ++ [s]) w.

(** [services.indexOf(s)] followed by [splice(index, 1)]: the array loses
    the first slot that holds the object [s]. *)
Fixpoint splice_out (oid : nat) (l : list Service) : list Service :=
  match l with
  | [] => []
  | s :: l' => if bool_decide (s_oid s = oid) then l' else s :: splice_out oid l'
  end.

(** [platformAccessory.removeService(s)]: [s] is spliced out of the very
    array that [platformAccessory.services] hands out. *)
Definition removeService (s : Service) (w : World) : World :=
  with_services (splice_out (s_oid s) (services w)) w.

(** A write through a reference to the first service of type [ty]: the
    object is changed where it sits in the array. *)
Fixpoint update_first (ty : service_type) (f : Service -> Service)
    (l : list Service) : list Service :=
  match l with
  | [] => []
  | s :: l' => if has_type ty s then f s :: l' else s :: update_first ty f l'
  end.

(** Total number of characteristic writes on the accessory's services. *)
Definition count_writes (w : World) : nat :=
  list_sum (List.map (fun s => length (written s)) (services w)).

(** [this.service.getCharacteristic(c).setValue(v)] where [this.service]
    is [platformAccessory.getService(ty)]: a TypeError when the accessory
    has no such service. *)
Definition setValue (ty : service_type) (c : characteristic) (v : value)
    (w : World) : option World :=
  match getService ty w with
  | None => None
  | Some _ =>
      Some (with_services (update_first ty (setCharacteristic c v) (services w)) w)
  end.

(** ** The base class

    Both abilities extend the class [Ability] of [./base], which is not
    part of the sources.  Its fields are the ones [setup] assigns; its
    methods are given here as the specification describes attach and
    detach. *)
Module Ability.

(** The references [device], [accessory], [log] and [platformAccessory]
    of an ability are set together and cleared together; [bound] tells
    whether they point to the accessory of the world or are [null]. *)
Record t := mk { bound : bool }.

(** Modelled from the spec: the constructor of the base class, not in the
    sources.  An ability is attached by [setup], so it starts with its
    references unset. *)
Definition constructor : t := mk false.

(** The four assignments at the head of [setup]. *)
Definition bind (a : t) : t := mk true.

(** Modelled from the spec: [_setupEventHandlers] of the base class, not
    in the sources.  Attach "registers one change listener per configured
    property", and those are the ones the subclasses register: the base
    registers none. *)
Definition _setupEventHandlers (w : World) : World := w.

(** Modelled from the spec: [detach] of the base class, not in the
    sources.  "Detach unregisters exactly the listeners it registered" and
    the module "never mutates device state": the base removes no listener
    and only lets go of the references that [setup] bound. *)
Definition detach (a : t) : t := mk false.

End Ability.

(** ** PowerMeterAbility *)
Module PowerMeterAbility.

Record t := mk {
  super : Ability.t;
  this : nat;
  _consumptionProperty : string;
  _electricCurrentProperty : property;
  _voltageProperty : property;
}.

Definition constructor (oid : nat) (consumptionProperty : string)
    (electricCurrentProperty voltageProperty : property) : t :=
  mk Ability.constructor oid consumptionProperty electricCurrentProperty
    voltageProperty.

Definition with_super (b : Ability.t) (a : t) : t :=
  mk b (this a) (_consumptionProperty a) (_electricCurrentProperty a)
    (_voltageProperty a).

Definition bound (a : t) : bool := Ability.bound (super a).

Definition service (w : World) : option Service :=
  getService PowerMeterService w.

Definition consumption (a : t) (w : World) : number :=
  Math_min
    (Math_max (ToNumber (get (device w) (_consumptionProperty a))) (num_of_Z 0))
    (num_of_Z 65535).

Definition electricCurrent (a : t) (w : World) : value :=
  get (device w) (ToString (_electricCurrentProperty a)).

Definition voltage (a : t) (w : World) : value :=
  get (device w) (ToString (_voltageProperty a)).

Definition _createService (a : t) (w : World) : option (Service * World) :=
  if bound a then
    let '(service, w) := new_Service PowerMeterService None w in
    let service :=
      setCharacteristic ConsumptionCharacteristic (Num (consumption a w))
        service in
    let service :=
      if truthy (_electricCurrentProperty a)
      then setCharacteristic ElectricCurrentCharacteristic
             (electricCurrent a w) service
      else service in
    let service :=
      if truthy (_voltageProperty a)
      then setCharacteristic VoltageCharacteristic (voltage a w) service
      else service in
    Some (service, w)
  else None.

Definition _setupEventHandlers (a : t) (w : World) : option World :=
  let w := Ability._setupEventHandlers w in
  if bound a then
    let d :=
      on (change (_consumptionProperty a))
        PowerMeter_consumptionChangeHandler (this a) (device w) in
    let d :=
      if truthy (_electricCurrentProperty a)
      then on (change (ToString (_electricCurrentProperty a)))
             PowerMeter_electricCurrentChangeHandler (this a) d
      else d in
    let d :=
      if truthy (_voltageProperty a)
      then on (change (ToString (_voltageProperty a)))
             PowerMeter_voltageChangeHandler (this a) d
      else d in
    Some (with_device d w)
  else None.

Definition _consumptionChangeHandler (a : t) (newValue : value)
    (w : World) : option World :=
  if bound a then
    let w := log_change (_consumptionProperty a) newValue w in
    setValue PowerMeterService ConsumptionCharacteristic
      (Num (consumption a w)) w
  else None.

Definition _electricCurrentChangeHandler (a : t) (newValue : value)
    (w : World) : option World :=
  if bound a then
    let w := log_change (ToString (_electricCurrentProperty a)) newValue w in
    setValue PowerMeterService ElectricCurrentCharacteristic
      (electricCurrent a w) w
  else None.

Definition _voltageChangeHandler (a : t) (newValue : value)
    (w : World) : option World :=
  if bound a then
    let w := log_change (ToString (_voltageProperty a)) newValue w in
    setValue PowerMeterService VoltageCharacteristic (voltage a w) w
  else None.

Definition detach (a : t) (w : World) : option (t * World) :=
  if bound a then
    let d :=
      removeListener (change (_consumptionProperty a))
        PowerMeter_consumptionChangeHandler (this a) (device w) in
    let d :=
      if truthy (_electricCurrentProperty a)
      then removeListener (change (ToString (_electricCurrentProperty a)))
             PowerMeter_electricCurrentChangeHandler (this a) d
      else d in
    let d :=
      if truthy (_voltageProperty a)
      then removeListener (change (ToString (_voltageProperty a)))
             PowerMeter_voltageChangeHandler (this a) d
      else d in
    Some (with_super (Ability.detach (super a)) a, with_device d w)
  else None.

(** The registrations that attaching makes on the device, in order. *)
Definition registered (a : t) : list listener :=
  [Listener (change (_consumptionProperty a))
     PowerMeter_consumptionChangeHandler (this a) false]
  ++ (if truthy (_electricCurrentProperty a)
      then [Listener (change (ToString (_electricCurrentProperty a)))
              PowerMeter_electricCurrentChangeHandler (this a) false]
      else [])
  ++ (if truthy (_voltageProperty a)
      then [Listener (change (ToString (_voltageProperty a)))
              PowerMeter_voltageChangeHandler (this a) false]
      else []).

(** Modelled from the spec: [setup] is inherited from the base class,
    which is not part of the sources.  "On attach, creates the service,
    seeds its characteristics with current (clamped) values, and
    registers one change listener per configured property." *)
Definition setup (a : t) (w : World) : option (t * World) :=
  let a := with_super (Ability.bind (super a)) a in
  '(service, w) ← _createService a w;
  let w := addService service w in
  w ← _setupEventHandlers a w;
  Some (a, w).

End PowerMeterAbility.

(** ** The history service *)

(** A sample handed to [addEntry]: [{time, power}]. *)
Record entry := mkEntry { time : Z; power : number }.

(** A [FakeGatoHistoryService] object, as far as the ability sees it: the
    constructor arguments, the values written to the characteristics of
    the object itself, and the samples it was given, oldest first. *)
Record FakeGatoHistory := mkHistory {
  accessoryType : string;
  options : FakeGatoOptions;
  h_written : list (characteristic * value);
  entries : list entry;
}.

(** [new FakeGatoHistoryService(kind, platformAccessory, options)].  As the
    comment in [setup] says, the constructor puts the service on the
    platform accessory: the library takes the history service the
    accessory already has, and adds one when there is none.  That service
    is [service.service] of the new object. *)
Definition new_FakeGatoHistoryService (kind : string) (opts : FakeGatoOptions)
    (w : World) : FakeGatoHistory * World :=
  let w :=
    mkWorld (device w) (log w) (services w) (storagePath w)
      (constructed w ++ [(kind, opts)]) (next_oid w) in
  let w :=
    match getService FakeGatoHistoryService w with
    | Some _ => w
    | None =>
        let '(s, w) := new_Service FakeGatoHistoryService (Some kind) w in
        addService s w
    end in
  (mkHistory kind opts [] [], w).

(** [history.getCharacteristic(c).setValue(v)] *)
Definition h_setValue (c : characteristic) (v : value)
    (h : FakeGatoHistory) : FakeGatoHistory :=
  mkHistory (accessoryType h) (options h) (h_written h ++ [(c, v)]) (entries h).

(** [history.addEntry(e)] *)
Definition addEntry (e : entry) (h : FakeGatoHistory) : FakeGatoHistory :=
  mkHistory (accessoryType h) (options h) (h_written h) (entries h ++ [e]).

(** ** PowerConsumptionAbility *)
Module PowerConsumptionAbility.

Record t := mk {
  super : Ability.t;
  this : nat;
  _consumptionProperty : string;
  _service : option FakeGatoHistory;
}.

Definition constructor (oid : nat) (consumptionProperty : string) : t :=
  mk Ability.constructor oid consumptionProperty None.

Definition with_super (b : Ability.t) (a : t) : t :=
  mk b (this a) (_consumptionProperty a) (_service a).

Definition with_service (h : FakeGatoHistory) (a : t) : t :=
  mk (super a) (this a) (_consumptionProperty a) (Some h).

Definition bound (a : t) : bool := Ability.bound (super a).

Definition service (a : t) : option FakeGatoHistory := _service a.

Definition consumption (a : t) (w : World) : number :=
  Math_min
    (Math_max (ToNumber (get (device w) (_consumptionProperty a))) (num_of_Z 0))
    (num_of_Z 65535).

Definition _createService (a : t) (w : World)
    : option (FakeGatoHistory * World) :=
  if bound a then
    let '(service, w) :=
      new_FakeGatoHistoryService "energy"
        (mkOptions "fs" (storagePath w +:+ "/accessories")
           (d_id (device w) +:+ "_persist.json") 10) w in
    let w :=
      with_services
        (update_first FakeGatoHistoryService
           (setCharacteristic TotalConsumptionCharacteristic
              (Num (consumption a w)))
           (services w)) w in
    Some (service, w)
  else None.

Definition _setupEventHandlers (a : t) (w : World) : option World :=
  let w := Ability._setupEventHandlers w in
  if bound a then
    Some (with_device
            (on (change (_consumptionProperty a))
               PowerConsumption_consumptionChangeHandler (this a) (device w))
            w)
  else None.

(** [for (const s of platformAccessory.services)
      if (s.UUID == FakeGatoHistoryService.UUID)
        platformAccessory.removeService(s)]
    The iterator keeps an index [i] into the live array: each step reads
    slot [i] of the array as it is then, and stops when [i] is past its
    end.  The array never grows here, so its length at the start bounds
    the number of steps. *)
Fixpoint for_of_services (fuel i : nat) (w : World) : World :=
  match fuel with
  | 0 => w
  | S fuel' =>
      match services w !! i with
      | None => w
      | Some s =>
          let w :=
            if has_type FakeGatoHistoryService s then removeService s w
            else w in
          for_of_services fuel' (S i) w
      end
  end.

Definition setup (a : t) (w : World) : option (t * World) :=
  let a := with_super (Ability.bind (super a)) a in
  match _service a with
  | None =>
      let w :=
        log_call info [Text "Creating new FakeGatoHistoryService service."] w in
      let w := for_of_services (length (services w)) 0 w in
      '(service, w) ← _createService a w;
      let a := with_service service a in
      w ← _setupEventHandlers a w;
      Some (a, w)
  | Some _ =>
      let w := log_call debug [Text "FakeGatoHistoryService exists."] w in
      w ← _setupEventHandlers a w;
      Some (a, w)
  end.

(** [now] is the value of [new Date().valueOf()] when the handler runs,
    in milliseconds. *)
Definition _consumptionChangeHandler (a : t) (newValue : value) (now : Z)
    (w : World) : option (t * World) :=
  if bound a then
    let w := log_change (_consumptionProperty a) newValue w in
    h ← service a;
    let a :=
      with_service
        (h_setValue TotalConsumptionCharacteristic (Num (consumption a w)) h)
        a in
    h ← service a;
    let a :=
      with_service
        (addEntry
           (mkEntry (Math_round (inject_Z now / 1000)%Q) (consumption a w)) h)
        a in
    Some (a, w)
  else None.

Definition detach (a : t) (w : World) : option (t * World) :=
  if bound a then
    let d :=
      removeListener (change (_consumptionProperty a))
        PowerConsumption_consumptionChangeHandler (this a) (device w) in
    Some (with_super (Ability.detach (super a)) a, with_device d w)
  else None.

(** The registration that attaching makes on the device. *)
Definition registered (a : t) : list listener :=
  [Listener (change (_consumptionProperty a))
     PowerConsumption_consumptionChangeHandler (this a) false].

End PowerConsumptionAbility.

(** ** The clamp and the timestamp as the specification words them *)

(** "clamped value = max(0, min(v, 65535))" *)
Definition clamp_spec (v : number) : number :=
  Math_max (num_of_Z 0) (Math_min v (num_of_Z 65535)).

(** "floor(event time in seconds)", the event time being [now]
    milliseconds. *)
Definition floor_seconds (now : Z) : Z := Qfloor (inject_Z now / 1000)%Q.

(** Number of services of type [ty] on the accessory. *)
Definition count_type (ty : service_type) (w : World) : nat :=
  length (List.filter (has_type ty) (services w)).

(** The identities of the history services on the accessory. *)
Definition history_oids (w : World) : list nat :=
  List.map s_oid (List.filter (has_type FakeGatoHistoryService) (services w)).

(** What the loop of [setup] makes of the part of the array that lies
    ahead of its index: a history service is dropped, and the service
    that follows it is passed over unseen. *)
Fixpoint sweep (l : list Service) : list Service :=
  match l with
  | [] => []
  | s :: rest =>
      if has_type FakeGatoHistoryService s then
        match rest with
        | [] => []
        | r :: rest' => r :: sweep rest'
        end
      else s :: sweep rest
  end.

(** No two history services sit next to each other. *)
Fixpoint no_neighbours (l : list Service) : bool :=
  match l with
  | [] => true
  | s :: rest =>
      match rest with
      | [] => true
      | r :: _ =>
          negb (has_type FakeGatoHistoryService s
                && has_type FakeGatoHistoryService r)
      end
      && no_neighbours rest
  end.

(** ** A sample accessory

    A plug that reports 3.5 W at 230 V, with a listener of another part of
    the plugin already on the device, and the abilities a plug gets. *)
Definition plug : Device :=
  mkDevice "SHPLG-S" "A1B2C3"
    (<["powerMeter0" := Num (Finite (Q2Qc (7 # 2)))]>
       (<["voltage0" := Num (num_of_Z 230)]> ∅))
    [Listener "change:relay0" (foreign 0) 7 false].

Definition home : World :=
  mkWorld plug [] [mkService 0 (OtherService "AccessoryInformation") None []]
    "/var/lib/homebridge" [] 1.

Definition meter : PowerMeterAbility.t :=
  PowerMeterAbility.constructor 10 "powerMeter0" None (Some "voltage0").

Definition history : PowerConsumptionAbility.t :=
  PowerConsumptionAbility.constructor 11 "powerMeter0".

(** The plug's world with the power reading replaced by [v]. *)
Definition reading (v : value) : World :=
  with_device
    (mkDevice (d_type plug) (d_id plug) (<["powerMeter0" := v]> (d_props plug))
       (d_events plug))
    home.

(** The same plug restored from the accessory cache with two history
    services left over, one next to the other. *)
Definition cached : World :=
  mkWorld plug []
    [mkService 0 (OtherService "AccessoryInformation") None [];
     mkService 1 FakeGatoHistoryService (Some "energy") [];
     mkService 2 FakeGatoHistoryService (Some "custom") []]
    "/var/lib/homebridge" [] 3.

(** ** Runs of consumption changes *)

(** The device takes the value [v] for its property [name]; this is what
    comes before the device emits ['change:' + name]. *)
Definition set_property (name : string) (v : value) (w : World) : World :=
  with_device
    (mkDevice (d_type (device w)) (d_id (device w))
       (<[name := v]> (d_props (device w))) (d_events (device w)))
    w.

(** A run of consumption changes seen by the history ability: for each
    pair [(v, now)] the device takes [v] as its consumption reading and the
    handler is called with [v] while the clock shows [now]. *)
Fixpoint consumption_changes (events : list (value * Z))
    (a : PowerConsumptionAbility.t) (w : World)
    : option (PowerConsumptionAbility.t * World) :=
  match events with
  | [] => Some (a, w)
  | (v, now) :: rest =>
      '(a, w) ← PowerConsumptionAbility._consumptionChangeHandler a v now
                  (set_property (PowerConsumptionAbility._consumptionProperty a)
                     v w);
      consumption_changes rest a w
  end.

(** The entry and the write that one change of the run leaves behind. *)
Definition entry_of (ev : value * Z) : entry :=
  mkEntry (Math_round (inject_Z ev.2 / 1000)%Q) (clamp_spec (ToNumber ev.1)).

Definition write_of (ev : value * Z) : characteristic * value :=
  (TotalConsumptionCharacteristic, Num (clamp_spec (ToNumber ev.1))).

(** A change seen by the live-metrics ability. *)
Inductive meter_change :=
  | ConsumptionChange (v : value)
  | ElectricCurrentChange (v : value)
  | VoltageChange (v : value).

(** One change: the device takes the value for the property the ability
    was given for it, and the handler for that property is called. *)
Definition meter_change_step (a : PowerMeterAbility.t) (c : meter_change)
    (w : World) : option World :=
  match c with
  | ConsumptionChange v =>
      PowerMeterAbility._consumptionChangeHandler a v
        (set_property (PowerMeterAbility._consumptionProperty a) v w)
  | ElectricCurrentChange v =>
      PowerMeterAbility._electricCurrentChangeHandler a v
        (set_property (ToString (PowerMeterAbility._electricCurrentProperty a))
           v w)
  | VoltageChange v =>
      PowerMeterAbility._voltageChangeHandler a v
        (set_property (ToString (PowerMeterAbility._voltageProperty a)) v w)
  end.

Fixpoint meter_changes (events : list meter_change) (a : PowerMeterAbility.t)
    (w : World) : option World :=
  match events with
  | [] => Some w
  | c :: rest => w ← meter_change_step a c w; meter_changes rest a w
  end.

(** The write that one change leaves on the power-meter service. *)
Definition meter_write_of (c : meter_change) : characteristic * value :=
  match c with
  | ConsumptionChange v =>
      (ConsumptionCharacteristic, Num (clamp_spec (ToNumber v)))
  | ElectricCurrentChange v => (ElectricCurrentCharacteristic, v)
  | VoltageChange v => (VoltageCharacteristic, v)
  end.

(** The services that are not history services. *)
Definition other_services (l : list Service) : list Service :=
  List.filter (fun s => negb (has_type FakeGatoHistoryService s)) l.

(** The plug restored from the cache with two stale history services that
    are not neighbours. *)
Definition cached_apart : World :=
  mkWorld plug []
    [mkService 1 FakeGatoHistoryService (Some "energy") [];
     mkService 0 (OtherService "AccessoryInformation") None [];
     mkService 2 FakeGatoHistoryService (Some "custom") []]
    "/var/lib/homebridge" [] 3.

(** A history ability for a property the plug does not have. *)
Definition counter : PowerConsumptionAbility.t :=
  PowerConsumptionAbility.constructor 12 "energyCounter0".

(** * Properties *)

(** ** Numbers *)

Lemma num_ltb_Finite (x y : Qc) :
  num_ltb (Finite x) (Finite y) = true <-> (x < y)%Qc.
Proof.
  simpl. rewrite Qclt_alt. destruct (x ?= y)%Qc; split; congruence.
Qed.

Lemma zero_lt_65535 : (Qc_of_Z 0 < Qc_of_Z 65535)%Qc.
Proof. reflexivity. Qed.

(** The clamp of the code on a finite reading, by cases. *)
Lemma clamp_Finite (q : Qc) :
  Math_min (Math_max (Finite q) (num_of_Z 0)) (num_of_Z 65535) =
  if decide (q < Qc_of_Z 0)%Qc then num_of_Z 0
  else if decide (Qc_of_Z 65535 < q)%Qc then num_of_Z 65535
  else Finite q.
Proof.
  unfold Math_max, Math_min, num_of_Z.
  destruct (decide (q < Qc_of_Z 0)%Qc) as [Hlt | Hge].
  - rewrite (proj2 (num_ltb_Finite _ _) Hlt).
    destruct (num_ltb (Finite (Qc_of_Z 65535)) (Finite (Qc_of_Z 0))) eqn:E; [|done].
    apply num_ltb_Finite in E. exfalso.
    exact (Qclt_not_le _ _ E (Qclt_le_weak _ _ zero_lt_65535)).
  - destruct (num_ltb (Finite q) (Finite (Qc_of_Z 0))) eqn:E.
    { apply num_ltb_Finite in E. contradiction. }
    destruct (decide (Qc_of_Z 65535 < q)%Qc) as [Hgt | Hle].
    + by rewrite (proj2 (num_ltb_Finite _ _) Hgt).
    + destruct (num_ltb (Finite (Qc_of_Z 65535)) (Finite q)) eqn:E'; [|done].
      apply num_ltb_Finite in E'. contradiction.
Qed.

(** The clamp of the specification on a finite reading, by the same cases. *)
Lemma clamp_spec_Finite (q : Qc) :
  clamp_spec (Finite q) =
  if decide (q < Qc_of_Z 0)%Qc then num_of_Z 0
  else if decide (Qc_of_Z 65535 < q)%Qc then num_of_Z 65535
  else Finite q.
Proof.
  unfold clamp_spec, Math_max, Math_min, num_of_Z.
  destruct (decide (q < Qc_of_Z 0)%Qc) as [Hlt | Hge].
  - destruct (num_ltb (Finite (Qc_of_Z 65535)) (Finite q)) eqn:E.
    { apply num_ltb_Finite in E. exfalso.
      apply (Qclt_not_le _ _ (Qclt_trans _ _ _ E Hlt)).
      apply Qclt_le_weak, zero_lt_65535. }
    destruct (num_ltb (Finite (Qc_of_Z 0)) (Finite q)) eqn:E'; [|done].
    apply num_ltb_Finite in E'. exfalso.
    exact (Qclt_not_le _ _ E' (Qclt_le_weak _ _ Hlt)).
  - destruct (decide (Qc_of_Z 65535 < q)%Qc) as [Hgt | Hle].
    + rewrite (proj2 (num_ltb_Finite _ _) Hgt).
      by rewrite (proj2 (num_ltb_Finite _ _) zero_lt_65535).
    + destruct (num_ltb (Finite (Qc_of_Z 65535)) (Finite q)) eqn:E.
      { apply num_ltb_Finite in E. contradiction. }
      destruct (num_ltb (Finite (Qc_of_Z 0)) (Finite q)) eqn:E'; [done|].
      f_equal. apply Qcle_antisym.
      * by apply Qcnot_lt_le.
      * apply Qcnot_lt_le. intros H. apply num_ltb_Finite in H. congruence.
Qed.

Lemma clamp_eq (n : number) :
  Math_min (Math_max n (num_of_Z 0)) (num_of_Z 65535) = clamp_spec n.
Proof.
  destruct n as [| |q|]; try reflexivity.
  by rewrite clamp_Finite, clamp_spec_Finite.
Qed.

(** Rounding a millisecond count to seconds, in integer arithmetic. *)
Lemma Math_round_seconds (now : Z) :
  Math_round (inject_Z now / 1000)%Q = ((now + 500) / 1000)%Z.
Proof.
  unfold Math_round. rewrite Zdiv_Qdiv. apply Qfloor_comp.
  rewrite inject_Z_plus. change (inject_Z 1000) with (1000 # 1)%Q. field.
Qed.

Lemma floor_seconds_div (now : Z) : floor_seconds now = (now / 1000)%Z.
Proof. unfold floor_seconds. by rewrite Zdiv_Qdiv. Qed.

(** ** The event emitter *)

Lemma filter_filter_and {A} (p q : A -> bool) (l : list A) :
  List.filter q (List.filter p l) = List.filter (fun x => p x && q x) l.
Proof.
  induction l as [|x l IH]; simpl; [done|].
  destruct (p x); simpl; [destruct (q x)|]; by rewrite IH.
Qed.

Lemma same_registration_refl (r : listener) : same_registration r r = true.
Proof.
  unfold same_registration, matches. by rewrite !bool_decide_eq_true_2.
Qed.

Lemma with_events_id (w : World) : with_events (d_events (device w)) w = w.
Proof. by destruct w as [[] ? ? ? ? ?]. Qed.

(** Listeners that carry none of the registrations [regs] pass the
    removal of [regs] unchanged. *)
Lemma filter_unregistered (regs L : list listener) :
  Forall (fun l => registered_by regs l = false) L ->
  List.filter (fun l => negb (registered_by regs l)) L = L.
Proof.
  induction 1 as [|l L Hl _ IH]; simpl; [done|]. by rewrite Hl, IH.
Qed.

(** The registrations [regs] themselves do not pass it. *)
Lemma filter_registered (regs : list listener) :
  List.filter (fun l => negb (registered_by regs l)) regs = [].
Proof.
  assert (H : forall rs, (forall r, In r rs -> registered_by regs r = true) ->
            List.filter (fun l => negb (registered_by regs l)) rs = []).
  { induction rs as [|r rs IH]; intros Hin; simpl; [done|].
    rewrite (Hin r) by (by left). simpl. apply IH. intros; apply Hin. by right. }
  apply H. intros r Hr. unfold registered_by. apply existsb_exists.
  exists r. split; [done | apply same_registration_refl].
Qed.

Lemma filter_attached (regs L : list listener) :
  List.filter (fun l => negb (registered_by regs l)) (L ++ regs) =
  List.filter (fun l => negb (registered_by regs l)) L.
Proof. by rewrite List.filter_app, filter_registered, app_nil_r. Qed.

(** ** Services *)

Lemma find_update_first (ty : service_type) (f : Service -> Service)
    (l : list Service) (s : Service) :
  (forall x, UUID (f x) = UUID x) ->
  List.find (has_type ty) l = Some s ->
  List.find (has_type ty) (update_first ty f l) = Some (f s).
Proof.
  intros Hf. induction l as [|x l IH]; simpl; [done|].
  destruct (has_type ty x) eqn:E; simpl.
  - intros [= <-]. unfold has_type in *. by rewrite Hf, E.
  - rewrite E. exact IH.
Qed.

Lemma oids_update_first (ty : service_type) (f : Service -> Service)
    (l : list Service) :
  (forall x, s_oid (f x) = s_oid x) ->
  List.map s_oid (update_first ty f l) = List.map s_oid l.
Proof.
  intros Hf. induction l as [|x l IH]; simpl; [done|].
  destruct (has_type ty x); simpl; by rewrite ?Hf, ?IH.
Qed.

Lemma writes_update_first (ty : service_type) (f : Service -> Service)
    (l : list Service) (s : Service) :
  (forall x, length (written (f x)) = S (length (written x))) ->
  List.find (has_type ty) l = Some s ->
  list_sum (List.map (fun x => length (written x)) (update_first ty f l)) =
  S (list_sum (List.map (fun x => length (written x)) l)).
Proof.
  intros Hf. induction l as [|x l IH]; simpl; [done|].
  destruct (has_type ty x); simpl.
  - intros _. by rewrite Hf.
  - intros H. rewrite (IH H). lia.
Qed.

Lemma find_none_filter (ty : service_type) (l : list Service) :
  List.find (has_type ty) l = None -> List.filter (has_type ty) l = [].
Proof.
  induction l as [|x l IH]; simpl; [done|].
  destruct (has_type ty x); [done | exact IH].
Qed.

Lemma written_setCharacteristic (c : characteristic) (v : value) (s : Service) :
  length (written (setCharacteristic c v s)) = S (length (written s)).
Proof. simpl. rewrite length_app. simpl. lia. Qed.

(** One [setValue] through [getService]: the service found gets one more
    write, which is the only write on the accessory. *)
Lemma setValue_spec (ty : service_type) (c : characteristic) (v : value)
    (w : World) (s : Service) :
  getService ty w = Some s ->
  exists w',
    setValue ty c v w = Some w'
    /\ getService ty w' = Some (setCharacteristic c v s)
    /\ count_writes w' = S (count_writes w)
    /\ device w' = device w /\ log w' = log w
    /\ List.map s_oid (services w') = List.map s_oid (services w).
Proof.
  intros Hs. unfold setValue. rewrite Hs. eexists. split; [reflexivity|].
  unfold getService, count_writes in *. simpl.
  repeat split.
  - by apply find_update_first.
  - apply (writes_update_first ty _ _ s); [|done].
    intros x. apply written_setCharacteristic.
  - by apply oids_update_first.
Qed.

(** ** Attaching and detaching *)

Lemma PowerMeter_setupEventHandlers_eq (a : PowerMeterAbility.t) (w : World) :
  PowerMeterAbility.bound a = true ->
  PowerMeterAbility._setupEventHandlers a w =
  Some (with_events (d_events (device w) ++ PowerMeterAbility.registered a) w).
Proof.
  intros Hb.
  unfold PowerMeterAbility._setupEventHandlers, PowerMeterAbility.registered,
    Ability._setupEventHandlers.
  rewrite Hb.
  destruct (truthy (PowerMeterAbility._electricCurrentProperty a)),
           (truthy (PowerMeterAbility._voltageProperty a)); simpl;
    unfold with_events, on; simpl; rewrite <- ?app_assoc; reflexivity.
Qed.

Lemma PowerMeter_detach_eq (a : PowerMeterAbility.t) (w : World) :
  PowerMeterAbility.bound a = true ->
  PowerMeterAbility.detach a w =
  Some (PowerMeterAbility.with_super (Ability.detach (PowerMeterAbility.super a)) a,
        with_events
          (List.filter
             (fun l => negb (registered_by (PowerMeterAbility.registered a) l))
             (d_events (device w))) w).
Proof.
  intros Hb. unfold PowerMeterAbility.detach, PowerMeterAbility.registered.
  rewrite Hb. do 2 f_equal. unfold with_events.
  destruct (truthy (PowerMeterAbility._electricCurrentProperty a)),
           (truthy (PowerMeterAbility._voltageProperty a)); simpl;
    unfold removeListener; simpl; rewrite ?filter_filter_and;
    do 2 f_equal; apply List.filter_ext; intros l;
    unfold registered_by, same_registration; simpl;
    repeat match goal with |- context [matches ?e ?f ?c l] =>
      destruct (matches e f c l) end; reflexivity.
Qed.

Lemma PowerConsumption_setupEventHandlers_eq
    (a : PowerConsumptionAbility.t) (w : World) :
  PowerConsumptionAbility.bound a = true ->
  PowerConsumptionAbility._setupEventHandlers a w =
  Some (with_events
          (d_events (device w) ++ PowerConsumptionAbility.registered a) w).
Proof.
  intros Hb. unfold PowerConsumptionAbility._setupEventHandlers.
  by rewrite Hb.
Qed.

Lemma PowerConsumption_detach_eq (a : PowerConsumptionAbility.t) (w : World) :
  PowerConsumptionAbility.bound a = true ->
  PowerConsumptionAbility.detach a w =
  Some (PowerConsumptionAbility.with_super
          (Ability.detach (PowerConsumptionAbility.super a)) a,
        with_events
          (List.filter
             (fun l => negb (registered_by (PowerConsumptionAbility.registered a) l))
             (d_events (device w))) w).
Proof.
  intros Hb. unfold PowerConsumptionAbility.detach. rewrite Hb.
  do 2 f_equal. unfold with_events, removeListener. simpl.
  do 2 f_equal. apply List.filter_ext. intros l.
  unfold registered_by, same_registration. simpl. by rewrite orb_false_r.
Qed.

(** Attaching and then detaching, on the registrations alone. *)
Lemma attach_detach_events (regs : list listener) (w : World) :
  with_events
    (List.filter (fun l => negb (registered_by regs l))
       (d_events (device (with_events (d_events (device w) ++ regs) w))))
    (with_events (d_events (device w) ++ regs) w) =
  with_events
    (List.filter (fun l => negb (registered_by regs l)) (d_events (device w))) w.
Proof. simpl. by rewrite filter_attached. Qed.

Lemma attach_detach_fresh (regs : list listener) (w : World) :
  Forall (fun l => registered_by regs l = false) (d_events (device w)) ->
  with_events
    (List.filter (fun l => negb (registered_by regs l)) (d_events (device w))) w
  = w.
Proof. intros H. rewrite filter_unregistered by done. apply with_events_id. Qed.

(** ** Setting up the history ability *)

Lemma length_splice_out (oid : nat) (l : list Service) :
  length (splice_out oid l) <= length l.
Proof.
  induction l as [|x l IH]; simpl; [lia|].
  destruct (bool_decide (s_oid x = oid)); simpl; lia.
Qed.

(** The loop over the services stops by itself: once the fuel covers what
    is left of the array, more fuel changes nothing. *)
Lemma for_of_services_fuel (fuel k i : nat) (w : World) :
  length (services w) <= i + fuel ->
  PowerConsumptionAbility.for_of_services (fuel + k) i w =
  PowerConsumptionAbility.for_of_services fuel i w.
Proof.
  revert i w. induction fuel as [|fuel IH]; intros i w Hlen; simpl.
  - destruct k as [|k]; simpl; [done|].
    by rewrite (lookup_ge_None_2 (services w) i) by lia.
  - destruct (services w !! i) as [s|] eqn:Hs; [|done].
    apply IH. destruct (has_type FakeGatoHistoryService s); simpl; [|lia].
    pose proof (length_splice_out (s_oid s) (services w)). lia.
Qed.

(** It touches nothing but the service array. *)
Lemma for_of_services_frame (fuel i : nat) (w : World) :
  exists l,
    PowerConsumptionAbility.for_of_services fuel i w = with_services l w.
Proof.
  revert i w. induction fuel as [|fuel IH]; intros i w; simpl.
  - exists (services w). by destruct w.
  - destruct (services w !! i) as [s|]; [|exists (services w); by destruct w].
    destruct (has_type FakeGatoHistoryService s).
    + destruct (IH (S i) (removeService s w)) as [l ->]. by exists l.
    + apply IH.
Qed.

(** With no history service on the accessory it removes nothing. *)
Lemma for_of_services_none (fuel i : nat) (w : World) :
  getService FakeGatoHistoryService w = None ->
  PowerConsumptionAbility.for_of_services fuel i w = w.
Proof.
  intros Hnone. revert i. induction fuel as [|fuel IH]; intros i; simpl; [done|].
  destruct (services w !! i) as [s|] eqn:Hs; [|done].
  rewrite (List.find_none _ _ Hnone s); [apply IH|].
  apply list_elem_of_In. by eapply list_elem_of_lookup_2.
Qed.

(** The second and later calls of [setup], in full. *)
Lemma setup_again (a : PowerConsumptionAbility.t) (h : FakeGatoHistory)
    (w : World) :
  PowerConsumptionAbility._service a = Some h ->
  PowerConsumptionAbility.setup a w =
  Some (PowerConsumptionAbility.with_super
          (Ability.bind (PowerConsumptionAbility.super a)) a,
        with_events
          (d_events (device w) ++ PowerConsumptionAbility.registered a)
          (log_call debug [Text "FakeGatoHistoryService exists."] w)).
Proof.
  intros Hh. unfold PowerConsumptionAbility.setup. simpl. by rewrite Hh.
Qed.

(** The services it leaves depend on the services it finds alone. *)
Lemma for_of_services_services (fuel i : nat) (w w' : World) :
  services w = services w' ->
  services (PowerConsumptionAbility.for_of_services fuel i w) =
  services (PowerConsumptionAbility.for_of_services fuel i w').
Proof.
  revert i w w'. induction fuel as [|fuel IH]; intros i w w' H; simpl; [done|].
  rewrite H. destruct (services w' !! i) as [s|]; [|done].
  destruct (has_type FakeGatoHistoryService s); apply IH; simpl; by rewrite ?H.
Qed.

Lemma oids_filter_update_first (ty ty' : service_type) (f : Service -> Service)
    (l : list Service) :
  (forall x, UUID (f x) = UUID x) ->
  (forall x, s_oid (f x) = s_oid x) ->
  List.map s_oid (List.filter (has_type ty') (update_first ty f l)) =
  List.map s_oid (List.filter (has_type ty') l).
Proof.
  intros Hu Ho. induction l as [|x l IH]; simpl; [done|].
  destruct (has_type ty x); simpl.
  - assert (E : has_type ty' (f x) = has_type ty' x)
      by (unfold has_type; by rewrite Hu).
    rewrite E. destruct (has_type ty' x); simpl; by rewrite ?Ho.
  - destruct (has_type ty' x); simpl; by rewrite IH.
Qed.

(** The first call of [setup]: one history service is constructed, with
    the ten-minute window and the file name made from the device id; when
    the loop has left no history service behind, the one on the accessory
    afterwards is a new object. *)
Lemma setup_first (a : PowerConsumptionAbility.t) (w : World) :
  PowerConsumptionAbility._service a = None ->
  exists h w1,
    PowerConsumptionAbility.setup a w =
    Some (PowerConsumptionAbility.with_service h
            (PowerConsumptionAbility.with_super
               (Ability.bind (PowerConsumptionAbility.super a)) a), w1)
    /\ h = mkHistory "energy"
             (mkOptions "fs" (storagePath w +:+ "/accessories")
                (d_id (device w) +:+ "_persist.json") 10) [] []
    /\ constructed w1 = constructed w ++ [("energy", options h)]
    /\ d_events (device w1) =
       d_events (device w) ++ PowerConsumptionAbility.registered a
    /\ d_props (device w1) = d_props (device w)
    /\ (getService FakeGatoHistoryService
          (PowerConsumptionAbility.for_of_services (length (services w)) 0 w)
        = None ->
        history_oids w1 = [next_oid w]).
Proof.
  intros Hnone. unfold PowerConsumptionAbility.setup.
  change (PowerConsumptionAbility._service
            (PowerConsumptionAbility.with_super
               (Ability.bind (PowerConsumptionAbility.super a)) a))
    with (PowerConsumptionAbility._service a).
  rewrite Hnone.
  set (w0 := log_call info _ w).
  destruct (for_of_services_frame (length (services w0)) 0 w0) as [l Hl].
  assert (Hlw : services
                  (PowerConsumptionAbility.for_of_services
                     (length (services w)) 0 w) = l).
  { rewrite (for_of_services_services _ _ w w0 eq_refl).
    change (length (services w)) with (length (services w0)). by rewrite Hl. }
  rewrite Hl.
  unfold PowerConsumptionAbility._createService,
    PowerConsumptionAbility.bound. simpl.
  unfold new_FakeGatoHistoryService, getService. rewrite Hlw. simpl.
  destruct (List.find (has_type FakeGatoHistoryService) l) as [s|] eqn:Hfind;
    simpl; eexists _, _; (split; [reflexivity|]); simpl;
    (repeat split; try reflexivity); [done|].
  intros _. unfold history_oids. simpl.
  rewrite oids_filter_update_first by done.
  rewrite List.filter_app, (find_none_filter _ _ Hfind). reflexivity.
Qed.

(** On an accessory without a history service the first [setup] leaves
    exactly one. *)
Lemma setup_first_fresh (a : PowerConsumptionAbility.t) (w : World) :
  PowerConsumptionAbility._service a = None ->
  getService FakeGatoHistoryService w = None ->
  exists a1 w1,
    PowerConsumptionAbility.setup a w = Some (a1, w1)
    /\ count_type FakeGatoHistoryService w1 = 1
    /\ length (constructed w1) = S (length (constructed w)).
Proof.
  intros Hh Hnone.
  destruct (setup_first a w Hh) as (h & w1 & Hs & _ & Hc & _ & _ & Hone).
  eexists _, w1. split; [exact Hs|]. split.
  - rewrite for_of_services_none in Hone by done.
    unfold count_type. unfold history_oids in Hone.
    by rewrite <- (length_map s_oid), (Hone Hnone).
  - rewrite Hc, length_app. simpl. lia.
Qed.

(** ** The change handlers *)

Lemma PowerMeter_consumption_eq (a : PowerMeterAbility.t) (w : World) :
  PowerMeterAbility.consumption a w =
  clamp_spec (ToNumber (get (device w) (PowerMeterAbility._consumptionProperty a))).
Proof. apply clamp_eq. Qed.

Lemma PowerConsumption_consumption_eq (a : PowerConsumptionAbility.t) (w : World) :
  PowerConsumptionAbility.consumption a w =
  clamp_spec
    (ToNumber (get (device w) (PowerConsumptionAbility._consumptionProperty a))).
Proof. apply clamp_eq. Qed.

(** The clamped value is NaN (for a reading that is no number) or lies
    between 0 and 65535. *)
Lemma clamp_spec_range (n : number) :
  clamp_spec n = NaN
  \/ exists q, clamp_spec n = Finite q
              /\ (Qc_of_Z 0 <= q)%Qc /\ (q <= Qc_of_Z 65535)%Qc.
Proof.
  destruct n as [| |q|]; [by left | right .. ].
  - exists (Qc_of_Z 0). repeat split; [apply Qcle_refl | by apply Qclt_le_weak].
  - rewrite clamp_spec_Finite.
    destruct (decide (q < Qc_of_Z 0)%Qc) as [Hlt | Hge];
      [|destruct (decide (Qc_of_Z 65535 < q)%Qc) as [Hgt | Hle]].
    + exists (Qc_of_Z 0).
      repeat split; [apply Qcle_refl | by apply Qclt_le_weak].
    + exists (Qc_of_Z 65535).
      repeat split; [by apply Qclt_le_weak | apply Qcle_refl].
    + exists q. repeat split; by apply Qcnot_lt_le.
  - exists (Qc_of_Z 65535).
    repeat split; [by apply Qclt_le_weak | apply Qcle_refl].
Qed.

(** The history ability's handler on an ability that was set up. *)
Lemma PowerConsumption_handler_eq (a : PowerConsumptionAbility.t)
    (newValue : value) (now : Z) (w : World) (h : FakeGatoHistory) :
  PowerConsumptionAbility.bound a = true ->
  PowerConsumptionAbility.service a = Some h ->
  PowerConsumptionAbility._consumptionChangeHandler a newValue now w =
  Some (PowerConsumptionAbility.with_service
          (addEntry
             (mkEntry (Math_round (inject_Z now / 1000)%Q)
                (PowerConsumptionAbility.consumption a w))
             (h_setValue TotalConsumptionCharacteristic
                (Num (PowerConsumptionAbility.consumption a w)) h)) a,
        log_change (PowerConsumptionAbility._consumptionProperty a) newValue w).
Proof.
  intros Hb Hh. unfold PowerConsumptionAbility._consumptionChangeHandler.
  rewrite Hb, Hh. reflexivity.
Qed.

(** A handler of the live-metrics ability: one [setValue] after the log
    line. *)
Lemma PowerMeter_handler_spec (c : characteristic) (v : value) (name : string)
    (newValue : value) (w : World) (s : Service) :
  PowerMeterAbility.service w = Some s ->
  exists w',
    setValue PowerMeterService c v (log_change name newValue w) = Some w'
    /\ PowerMeterAbility.service w' = Some (setCharacteristic c v s)
    /\ count_writes w' = S (count_writes w)
    /\ device w' = device w.
Proof.
  intros Hs.
  destruct (setValue_spec PowerMeterService c v (log_change name newValue w) s Hs)
    as (w' & Hw' & Hget & Hcount & Hdev & _).
  exists w'. by repeat split.
Qed.

(** The accessors on a few readings. *)
Example consumption_of_negative :
  PowerMeterAbility.consumption meter (reading (Num (num_of_Z (-5)))) = num_of_Z 0.
Proof. reflexivity. Qed.

Example consumption_of_large :
  PowerMeterAbility.consumption meter (reading (Num (num_of_Z 70000))) =
  num_of_Z 65535.
Proof. reflexivity. Qed.

Example consumption_in_range :
  PowerConsumptionAbility.consumption history home = Finite (Q2Qc (7 # 2)).
Proof. reflexivity. Qed.

Example consumption_of_infinities :
  PowerMeterAbility.consumption meter (reading (Num Infinity)) = num_of_Z 65535
  /\ PowerMeterAbility.consumption meter (reading (Num NegInfinity)) = num_of_Z 0.
Proof. split; reflexivity. Qed.

Example consumption_of_undefined :
  PowerConsumptionAbility.consumption history (reading undefined) = NaN
  /\ clamp_spec (ToNumber undefined) = NaN.
Proof. split; reflexivity. Qed.

Example voltage_as_read :
  PowerMeterAbility.voltage meter home = Num (num_of_Z 230)
  /\ PowerMeterAbility.electricCurrent meter home = undefined.
Proof. split; reflexivity. Qed.

(** ** The clamp (C2) *)

(** C2: for every consumption reading of the device, the consumption
    accessor of the live-metrics ability and that of the history ability
    both return max(0, min(v, 65535)), where v is the reading as a number;
    on a finite reading that is 0 below 0, 65535 above 65535 and the
    reading itself in between, and in every case it is NaN (the reading
    was no number) or lies in [0, 65535]. *)
Theorem consumption_is_clamped :
  (forall (a : PowerMeterAbility.t) (w : World),
      PowerMeterAbility.consumption a w =
      clamp_spec
        (ToNumber (get (device w) (PowerMeterAbility._consumptionProperty a))))
  /\ (forall (a : PowerConsumptionAbility.t) (w : World),
      PowerConsumptionAbility.consumption a w =
      clamp_spec
        (ToNumber
           (get (device w) (PowerConsumptionAbility._consumptionProperty a))))
  /\ (forall q : Qc,
      clamp_spec (Finite q) =
      if decide (q < Qc_of_Z 0)%Qc then num_of_Z 0
      else if decide (Qc_of_Z 65535 < q)%Qc then num_of_Z 65535
      else Finite q)
  /\ (forall n : number,
      clamp_spec n = NaN
      \/ exists q, clamp_spec n = Finite q
                   /\ (Qc_of_Z 0 <= q)%Qc /\ (q <= Qc_of_Z 65535)%Qc).
Proof.
  split; [|split; [|split]].
  - apply PowerMeter_consumption_eq.
  - apply PowerConsumption_consumption_eq.
  - apply clamp_spec_Finite.
  - apply clamp_spec_range.
Qed.

(** ** One write per consumption change (C3) *)

(** C3: a consumption-change handler of an attached ability makes exactly
    one characteristic write, of the clamped current reading: on the
    live-metrics ability the power-meter service gets one more write, to
    the consumption characteristic, and the writes on the accessory grow by
    one; on the history ability the history service gets one more write,
    to the total-consumption characteristic, and the services of the
    accessory are left alone. *)
Theorem consumption_change_writes_once :
  (forall (a : PowerMeterAbility.t) (newValue : value) (w : World) (s : Service),
      PowerMeterAbility.bound a = true ->
      PowerMeterAbility.service w = Some s ->
      exists w',
        PowerMeterAbility._consumptionChangeHandler a newValue w = Some w'
        /\ PowerMeterAbility.service w' =
           Some (setCharacteristic ConsumptionCharacteristic
                   (Num (clamp_spec
                           (ToNumber
                              (get (device w)
                                 (PowerMeterAbility._consumptionProperty a)))))
                   s)
        /\ count_writes w' = S (count_writes w))
  /\ (forall (a : PowerConsumptionAbility.t) (newValue : value) (now : Z)
        (w : World) (h : FakeGatoHistory),
      PowerConsumptionAbility.bound a = true ->
      PowerConsumptionAbility.service a = Some h ->
      exists a' w' h',
        PowerConsumptionAbility._consumptionChangeHandler a newValue now w =
        Some (a', w')
        /\ PowerConsumptionAbility.service a' = Some h'
        /\ h_written h' =
           h_written h ++
           [(TotalConsumptionCharacteristic,
             Num (clamp_spec
                    (ToNumber
                       (get (device w)
                          (PowerConsumptionAbility._consumptionProperty a)))))]
        /\ services w' = services w).
Proof.
  split.
  - intros a newValue w s Hb Hs.
    unfold PowerMeterAbility._consumptionChangeHandler. rewrite Hb.
    destruct (PowerMeter_handler_spec ConsumptionCharacteristic
                (Num (PowerMeterAbility.consumption a w))
                (PowerMeterAbility._consumptionProperty a) newValue w s Hs)
      as (w' & Hw' & Hget & Hcount & _).
    exists w'. rewrite <- PowerMeter_consumption_eq. by repeat split.
  - intros a newValue now w h Hb Hh.
    rewrite (PowerConsumption_handler_eq a newValue now w h Hb Hh).
    eexists _, _, _. split; [reflexivity|]. split; [reflexivity|].
    simpl. by rewrite PowerConsumption_consumption_eq.
Qed.

Lemma consumption_change_writes_once_witness :
  (exists a w s,
      PowerMeterAbility.setup meter home = Some (a, w)
      /\ PowerMeterAbility.service w = Some s
      /\ exists w',
          PowerMeterAbility._consumptionChangeHandler a undefined w = Some w'
          /\ PowerMeterAbility.service w' =
             Some (setCharacteristic ConsumptionCharacteristic
                     (Num (clamp_spec
                             (ToNumber
                                (get (device w)
                                   (PowerMeterAbility._consumptionProperty a)))))
                     s)
          /\ count_writes w' = S (count_writes w))
  /\ (exists a w h,
      PowerConsumptionAbility.setup history home = Some (a, w)
      /\ PowerConsumptionAbility.service a = Some h
      /\ exists a' w' h',
          PowerConsumptionAbility._consumptionChangeHandler a undefined 1500 w =
          Some (a', w')
          /\ PowerConsumptionAbility.service a' = Some h'
          /\ h_written h' =
             h_written h ++
             [(TotalConsumptionCharacteristic,
               Num (clamp_spec
                      (ToNumber
                         (get (device w)
                            (PowerConsumptionAbility._consumptionProperty a)))))]
          /\ services w' = services w).
Proof.
  split.
  - eexists _, _, _. split; [reflexivity|]. split; [reflexivity|].
    apply (proj1 consumption_change_writes_once); reflexivity.
  - eexists _, _, _. split; [reflexivity|]. split; [reflexivity|].
    apply (proj2 consumption_change_writes_once); reflexivity.
Defined.

(** ** The history entry (C1, C10) *)

(** C1, as stated, fails: a change handled 1500 ms after the epoch is
    logged with timestamp 2, while floor(1.5) is 1. *)
Lemma timestamp_is_not_floor :
  exists a w a' w' h' e,
    PowerConsumptionAbility.setup history home = Some (a, w)
    /\ PowerConsumptionAbility._consumptionChangeHandler a undefined 1500 w =
       Some (a', w')
    /\ PowerConsumptionAbility.service a' = Some h'
    /\ entries h' = [e]
    /\ time e = 2%Z
    /\ floor_seconds 1500 = 1%Z
    /\ time e <> floor_seconds 1500.
Proof.
  eexists _, _, _, _, _, _.
  split; [reflexivity|]. split; [reflexivity|]. split; [reflexivity|].
  split; [reflexivity|]. split; [reflexivity|]. split; [reflexivity|].
  rewrite floor_seconds_div. simpl. rewrite Math_round_seconds. discriminate.
Qed.

(** C1, amended: every consumption change handled by the history ability
    appends exactly one entry to the history, and its timestamp is the
    time of the call in seconds rounded to the nearest whole second, a
    half going up: [Math.round(ms / 1000)], which is
    floor((ms + 500) / 1000). *)
Theorem history_entry_per_change (a : PowerConsumptionAbility.t)
    (newValue : value) (now : Z) (w : World) (h : FakeGatoHistory) :
  PowerConsumptionAbility.bound a = true ->
  PowerConsumptionAbility.service a = Some h ->
  exists a' w' h' e,
    PowerConsumptionAbility._consumptionChangeHandler a newValue now w =
    Some (a', w')
    /\ PowerConsumptionAbility.service a' = Some h'
    /\ entries h' = entries h ++ [e]
    /\ time e = Math_round (inject_Z now / 1000)%Q
    /\ time e = ((now + 500) / 1000)%Z.
Proof.
  intros Hb Hh. rewrite (PowerConsumption_handler_eq a newValue now w h Hb Hh).
  eexists _, _, _, _. split; [reflexivity|]. split; [reflexivity|].
  split; [reflexivity|]. split; [reflexivity|].
  apply Math_round_seconds.
Qed.

Lemma history_entry_per_change_witness :
  exists a w h,
    PowerConsumptionAbility.setup history home = Some (a, w)
    /\ PowerConsumptionAbility.service a = Some h
    /\ exists a' w' h' e,
        PowerConsumptionAbility._consumptionChangeHandler a undefined 1500 w =
        Some (a', w')
        /\ PowerConsumptionAbility.service a' = Some h'
        /\ entries h' = entries h ++ [e]
        /\ time e = Math_round (inject_Z 1500 / 1000)%Q
        /\ time e = ((1500 + 500) / 1000)%Z.
Proof.
  eexists _, _, _. split; [reflexivity|]. split; [reflexivity|].
  apply history_entry_per_change; reflexivity.
Defined.

(** C10: in every consumption change handled by the history ability, the
    power stored in the appended entry is the value written to the
    total-consumption characteristic in that same call. *)
Theorem entry_power_is_written_value (a : PowerConsumptionAbility.t)
    (newValue : value) (now : Z) (w : World) (h : FakeGatoHistory) :
  PowerConsumptionAbility.bound a = true ->
  PowerConsumptionAbility.service a = Some h ->
  exists a' w' h' v e,
    PowerConsumptionAbility._consumptionChangeHandler a newValue now w =
    Some (a', w')
    /\ PowerConsumptionAbility.service a' = Some h'
    /\ h_written h' = h_written h ++ [(TotalConsumptionCharacteristic, v)]
    /\ entries h' = entries h ++ [e]
    /\ Num (power e) = v
    /\ power e = PowerConsumptionAbility.consumption a w.
Proof.
  intros Hb Hh. rewrite (PowerConsumption_handler_eq a newValue now w h Hb Hh).
  eexists _, _, _, _, _. repeat (split; [reflexivity|]). reflexivity.
Qed.

Lemma entry_power_is_written_value_witness :
  exists a w h,
    PowerConsumptionAbility.setup history home = Some (a, w)
    /\ PowerConsumptionAbility.service a = Some h
    /\ exists a' w' h' v e,
        PowerConsumptionAbility._consumptionChangeHandler a undefined 1500 w =
        Some (a', w')
        /\ PowerConsumptionAbility.service a' = Some h'
        /\ h_written h' = h_written h ++ [(TotalConsumptionCharacteristic, v)]
        /\ entries h' = entries h ++ [e]
        /\ Num (power e) = v
        /\ power e = PowerConsumptionAbility.consumption a w.
Proof.
  eexists _, _, _. split; [reflexivity|]. split; [reflexivity|].
  apply entry_power_is_written_value; reflexivity.
Defined.

(** ** Seeding the power-meter service (C8, C9) *)

Lemma PowerMeter_createService_eq (a : PowerMeterAbility.t) (w : World) :
  PowerMeterAbility.bound a = true ->
  exists s w',
    PowerMeterAbility._createService a w = Some (s, w')
    /\ UUID s = PowerMeterService
    /\ device w' = device w /\ services w' = services w
    /\ written s =
       [(ConsumptionCharacteristic, Num (PowerMeterAbility.consumption a w))]
       ++ (if truthy (PowerMeterAbility._electricCurrentProperty a)
           then [(ElectricCurrentCharacteristic,
                  PowerMeterAbility.electricCurrent a w)]
           else [])
       ++ (if truthy (PowerMeterAbility._voltageProperty a)
           then [(VoltageCharacteristic, PowerMeterAbility.voltage a w)]
           else []).
Proof.
  intros Hb. unfold PowerMeterAbility._createService. rewrite Hb. simpl.
  eexists _, _. split; [reflexivity|].
  destruct (truthy (PowerMeterAbility._electricCurrentProperty a)),
           (truthy (PowerMeterAbility._voltageProperty a)); by repeat split.
Qed.

(** C8: creating the service of the live-metrics ability writes, in this
    order, the clamped consumption reading to the consumption
    characteristic, the electric-current reading to the electric-current
    characteristic when an electric-current property was given (a
    non-empty name), and the voltage reading to the voltage characteristic
    when a voltage property was given, and nothing else; so the
    electric-current (voltage) characteristic is seeded exactly when that
    property was given. *)
Theorem createService_seeds (a : PowerMeterAbility.t) (w : World) :
  PowerMeterAbility.bound a = true ->
  exists s w',
    PowerMeterAbility._createService a w = Some (s, w')
    /\ UUID s = PowerMeterService
    /\ written s =
       [(ConsumptionCharacteristic,
         Num (clamp_spec
                (ToNumber
                   (get (device w) (PowerMeterAbility._consumptionProperty a)))))]
       ++ (if truthy (PowerMeterAbility._electricCurrentProperty a)
           then [(ElectricCurrentCharacteristic,
                  PowerMeterAbility.electricCurrent a w)]
           else [])
       ++ (if truthy (PowerMeterAbility._voltageProperty a)
           then [(VoltageCharacteristic, PowerMeterAbility.voltage a w)]
           else [])
    /\ ((exists v, In (ElectricCurrentCharacteristic, v) (written s))
        <-> truthy (PowerMeterAbility._electricCurrentProperty a) = true)
    /\ ((exists v, In (VoltageCharacteristic, v) (written s))
        <-> truthy (PowerMeterAbility._voltageProperty a) = true)
    /\ (forall v, ~ In (TotalConsumptionCharacteristic, v) (written s)).
Proof.
  intros Hb.
  destruct (PowerMeter_createService_eq a w Hb) as (s & w' & Hs & Hu & _ & _ & Hw).
  exists s, w'. rewrite <- PowerMeter_consumption_eq.
  split; [done|]. split; [done|]. split; [done|]. rewrite Hw.
  destruct (truthy (PowerMeterAbility._electricCurrentProperty a)),
           (truthy (PowerMeterAbility._voltageProperty a)); simpl;
    repeat split;
    try (intros [v Hv]; simpl in Hv; intuition congruence);
    try (intros v Hv; simpl in Hv; intuition congruence);
    try (intros E; first [discriminate E | eexists; simpl; eauto]).
Qed.

Lemma createService_seeds_witness :
  exists s w',
    PowerMeterAbility._createService
      (PowerMeterAbility.with_super (Ability.bind (PowerMeterAbility.super meter))
         meter) home = Some (s, w')
    /\ UUID s = PowerMeterService
    /\ written s =
       [(ConsumptionCharacteristic, Num (Finite (Q2Qc (7 # 2))));
        (VoltageCharacteristic, Num (num_of_Z 230))].
Proof.
  destruct (createService_seeds
              (PowerMeterAbility.with_super
                 (Ability.bind (PowerMeterAbility.super meter)) meter)
              home eq_refl)
    as (s & w' & Hs & Hu & Hw & _).
  exists s, w'. split; [exact Hs|]. split; [exact Hu|].
  rewrite Hw. reflexivity.
Defined.

Lemma truthy_Some (name : string) : name <> "" -> truthy (Some name) = true.
Proof. intros H. simpl. by rewrite bool_decide_eq_false_2. Qed.

(** C9: the value of the configured electric-current property goes to the
    electric-current characteristic as it is, when the service is created
    and on every electric-current change, and likewise the value of the
    configured voltage property to the voltage characteristic: no clamp and
    no other transformation is applied to them. *)
Theorem current_and_voltage_unchanged :
  (forall (a : PowerMeterAbility.t) (name : string) (v newValue : value)
      (w : World) (s : Service),
      PowerMeterAbility.bound a = true ->
      PowerMeterAbility.service w = Some s ->
      PowerMeterAbility._electricCurrentProperty a = Some name ->
      name <> "" ->
      get (device w) name = v ->
      PowerMeterAbility.electricCurrent a w = v
      /\ (exists s0 w0,
            PowerMeterAbility._createService a w = Some (s0, w0)
            /\ In (ElectricCurrentCharacteristic, v) (written s0)
            /\ forall v', In (ElectricCurrentCharacteristic, v') (written s0) ->
                          v' = v)
      /\ (exists w',
            PowerMeterAbility._electricCurrentChangeHandler a newValue w = Some w'
            /\ PowerMeterAbility.service w' =
               Some (setCharacteristic ElectricCurrentCharacteristic v s)
            /\ count_writes w' = S (count_writes w)))
  /\ (forall (a : PowerMeterAbility.t) (name : string) (v newValue : value)
      (w : World) (s : Service),
      PowerMeterAbility.bound a = true ->
      PowerMeterAbility.service w = Some s ->
      PowerMeterAbility._voltageProperty a = Some name ->
      name <> "" ->
      get (device w) name = v ->
      PowerMeterAbility.voltage a w = v
      /\ (exists s0 w0,
            PowerMeterAbility._createService a w = Some (s0, w0)
            /\ In (VoltageCharacteristic, v) (written s0)
            /\ forall v', In (VoltageCharacteristic, v') (written s0) -> v' = v)
      /\ (exists w',
            PowerMeterAbility._voltageChangeHandler a newValue w = Some w'
            /\ PowerMeterAbility.service w' =
               Some (setCharacteristic VoltageCharacteristic v s)
            /\ count_writes w' = S (count_writes w))).
Proof.
  split; intros a name v newValue w s Hb Hs Hp Hname Hv.
  - assert (Hget : PowerMeterAbility.electricCurrent a w = v)
      by (unfold PowerMeterAbility.electricCurrent; by rewrite Hp).
    split; [done|]. split.
    + destruct (PowerMeter_createService_eq a w Hb)
        as (s0 & w0 & Hs0 & _ & _ & _ & Hw).
      exists s0, w0. split; [done|]. rewrite Hw, Hp, (truthy_Some _ Hname), Hget.
      destruct (truthy (PowerMeterAbility._voltageProperty a)); simpl;
        (split; [tauto | intros v' Hv'; intuition congruence]).
    + unfold PowerMeterAbility._electricCurrentChangeHandler. rewrite Hb.
      destruct (PowerMeter_handler_spec ElectricCurrentCharacteristic v
                  (ToString (PowerMeterAbility._electricCurrentProperty a))
                  newValue w s Hs) as (w' & Hw' & Hget' & Hcount & _).
      exists w'. split; [|done].
      rewrite <- Hw'. f_equal. unfold PowerMeterAbility.electricCurrent.
      rewrite Hp. exact Hv.
  - assert (Hget : PowerMeterAbility.voltage a w = v)
      by (unfold PowerMeterAbility.voltage; by rewrite Hp).
    split; [done|]. split.
    + destruct (PowerMeter_createService_eq a w Hb)
        as (s0 & w0 & Hs0 & _ & _ & _ & Hw).
      exists s0, w0. split; [done|]. rewrite Hw, Hp, (truthy_Some _ Hname), Hget.
      destruct (truthy (PowerMeterAbility._electricCurrentProperty a)); simpl;
        (split; [tauto | intros v' Hv'; intuition congruence]).
    + unfold PowerMeterAbility._voltageChangeHandler. rewrite Hb.
      destruct (PowerMeter_handler_spec VoltageCharacteristic v
                  (ToString (PowerMeterAbility._voltageProperty a))
                  newValue w s Hs) as (w' & Hw' & Hget' & Hcount & _).
      exists w'. split; [|done].
      rewrite <- Hw'. f_equal. unfold PowerMeterAbility.voltage.
      rewrite Hp. exact Hv.
Qed.

Lemma current_and_voltage_unchanged_witness :
  exists a w s,
    PowerMeterAbility.setup meter home = Some (a, w)
    /\ PowerMeterAbility.service w = Some s
    /\ PowerMeterAbility.voltage a w = Num (num_of_Z 230)
    /\ exists w',
        PowerMeterAbility._voltageChangeHandler a (Num (num_of_Z 231)) w = Some w'
        /\ PowerMeterAbility.service w' =
           Some (setCharacteristic VoltageCharacteristic (Num (num_of_Z 230)) s)
        /\ count_writes w' = S (count_writes w).
Proof.
  eexists _, _, _. split; [reflexivity|]. split; [reflexivity|].
  lazymatch goal with
  | |- PowerMeterAbility.voltage ?a ?w = _
       /\ (exists w', _ /\ _ = Some (setCharacteristic _ _ ?s) /\ _) =>
      destruct (proj2 current_and_voltage_unchanged a "voltage0"
                  (Num (num_of_Z 230)) (Num (num_of_Z 231)) w s
                  eq_refl eq_refl eq_refl ltac:(discriminate) eq_refl)
        as (H1 & _ & H3)
  end.
  exact (conj H1 H3).
Defined.

(** ** Listeners (C4, C5) *)

(** Whatever the state of the history ability, [setup] succeeds and adds
    the ability's one registration to the device. *)
Lemma PowerConsumption_setup_events (a : PowerConsumptionAbility.t) (w : World) :
  exists a' w',
    PowerConsumptionAbility.setup a w = Some (a', w')
    /\ PowerConsumptionAbility.bound a' = true
    /\ PowerConsumptionAbility.registered a' =
       PowerConsumptionAbility.registered a
    /\ is_Some (PowerConsumptionAbility._service a')
    /\ d_events (device w') =
       d_events (device w) ++ PowerConsumptionAbility.registered a.
Proof.
  destruct (PowerConsumptionAbility._service a) as [h|] eqn:Hh.
  - rewrite (setup_again a h w Hh). eexists _, _. split; [reflexivity|].
    simpl. rewrite Hh. by repeat split.
  - destruct (setup_first a w Hh) as (h & w1 & Hs & _ & _ & Hev & _).
    rewrite Hs. eexists _, _. split; [reflexivity|]. by repeat split.
Qed.

(** Modelled attach of the live-metrics ability: it succeeds on an
    accessory, leaves the ability bound with a power-meter service to
    write to, and adds the ability's registrations to the device. *)
Lemma PowerMeter_setup_attached (a : PowerMeterAbility.t) (w : World) :
  exists a' w',
    PowerMeterAbility.setup a w = Some (a', w')
    /\ PowerMeterAbility.bound a' = true
    /\ PowerMeterAbility.registered a' = PowerMeterAbility.registered a
    /\ is_Some (PowerMeterAbility.service w')
    /\ d_events (device w') =
       d_events (device w) ++ PowerMeterAbility.registered a.
Proof.
  unfold PowerMeterAbility.setup.
  set (a' := PowerMeterAbility.with_super _ a).
  destruct (PowerMeter_createService_eq a' w eq_refl)
    as (s & w0 & Hs & Hu & Hd & Hsv & _).
  rewrite Hs. unfold mbind, option_bind. cbv beta iota.
  rewrite (PowerMeter_setupEventHandlers_eq a' (addService s w0) eq_refl).
  eexists _, _. split; [reflexivity|]. split; [reflexivity|].
  split; [reflexivity|]. split.
  - unfold PowerMeterAbility.service, getService. simpl.
    destruct (List.find (has_type PowerMeterService) (services w0 ++ [s]))
      as [x|] eqn:E; [by eexists|].
    assert (Hf : has_type PowerMeterService s = false).
    { apply (List.find_none _ _ E s). apply in_app_iff. right. by left. }
    unfold has_type in Hf. by rewrite Hu, bool_decide_eq_true_2 in Hf.
  - simpl. by rewrite Hd.
Qed.

(** Modelled attach followed by [detach], on the registrations. *)
Lemma PowerMeter_setup_detach (a : PowerMeterAbility.t) (w : World) :
  exists a1 w1 a2 w2,
    PowerMeterAbility.setup a w = Some (a1, w1)
    /\ PowerMeterAbility.detach a1 w1 = Some (a2, w2)
    /\ PowerMeterAbility.bound a2 = false
    /\ d_events (device w2) =
       List.filter
         (fun l => negb (registered_by (PowerMeterAbility.registered a) l))
         (d_events (device w)).
Proof.
  destruct (PowerMeter_setup_attached a w) as (a1 & w1 & Hs & Hb & Hr & _ & He).
  exists a1, w1. rewrite (PowerMeter_detach_eq a1 w1 Hb).
  eexists _, _. split; [done|]. split; [reflexivity|]. split; [reflexivity|].
  cbn [with_events with_device device d_events].
  rewrite Hr, He. apply filter_attached.
Qed.

(** C4: on a bound live-metrics ability, [_setupEventHandlers] adds to the
    device the registration of the consumption handler, then that of the
    electric-current handler if an electric-current property was given (a
    non-empty name), then that of the voltage handler if a voltage property
    was given, and nothing else: one listener with the consumption property
    alone, one more for each of the other two.  The history ability adds
    its single consumption listener, in [_setupEventHandlers] and so in
    every [setup]. *)
Theorem attach_registers_listeners :
  (forall (a : PowerMeterAbility.t) (w : World),
      PowerMeterAbility.bound a = true ->
      exists w',
        PowerMeterAbility._setupEventHandlers a w = Some w'
        /\ d_events (device w') =
           d_events (device w) ++ PowerMeterAbility.registered a
        /\ length (d_events (device w')) =
           length (d_events (device w)) + 1
           + (if truthy (PowerMeterAbility._electricCurrentProperty a)
              then 1 else 0)
           + (if truthy (PowerMeterAbility._voltageProperty a) then 1 else 0)
        /\ (PowerMeterAbility._electricCurrentProperty a = None ->
            PowerMeterAbility._voltageProperty a = None ->
            d_events (device w') =
            d_events (device w) ++
            [Listener (change (PowerMeterAbility._consumptionProperty a))
               PowerMeter_consumptionChangeHandler (PowerMeterAbility.this a)
               false]))
  /\ (forall (a : PowerConsumptionAbility.t) (w : World),
      PowerConsumptionAbility.bound a = true ->
      exists w',
        PowerConsumptionAbility._setupEventHandlers a w = Some w'
        /\ d_events (device w') =
           d_events (device w) ++
           [Listener (change (PowerConsumptionAbility._consumptionProperty a))
              PowerConsumption_consumptionChangeHandler
              (PowerConsumptionAbility.this a) false])
  /\ (forall (a : PowerConsumptionAbility.t) (w : World),
      exists a' w',
        PowerConsumptionAbility.setup a w = Some (a', w')
        /\ d_events (device w') =
           d_events (device w) ++
           [Listener (change (PowerConsumptionAbility._consumptionProperty a))
              PowerConsumption_consumptionChangeHandler
              (PowerConsumptionAbility.this a) false]).
Proof.
  split; [|split].
  - intros a w Hb. rewrite (PowerMeter_setupEventHandlers_eq a w Hb).
    eexists. split; [reflexivity|]. simpl. split; [reflexivity|]. split.
    + rewrite length_app. unfold PowerMeterAbility.registered.
      destruct (truthy (PowerMeterAbility._electricCurrentProperty a)),
               (truthy (PowerMeterAbility._voltageProperty a)); simpl; lia.
    + intros He Hv. unfold PowerMeterAbility.registered. by rewrite He, Hv.
  - intros a w Hb. rewrite (PowerConsumption_setupEventHandlers_eq a w Hb).
    eexists. split; reflexivity.
  - intros a w.
    destruct (PowerConsumption_setup_events a w) as (a' & w' & Hs & _ & _ & _ & He).
    by exists a', w'.
Qed.

Lemma attach_registers_listeners_witness :
  exists a w w',
    PowerMeterAbility.setup meter home = Some (a, w)
    /\ PowerMeterAbility._setupEventHandlers a home = Some w'
    /\ d_events (device w') =
       [Listener "change:relay0" (foreign 0) 7 false;
        Listener "change:powerMeter0" PowerMeter_consumptionChangeHandler 10 false;
        Listener "change:voltage0" PowerMeter_voltageChangeHandler 10 false]
    /\ length (d_events (device w')) = 3.
Proof.
  destruct (proj1 attach_registers_listeners
              (PowerMeterAbility.with_super
                 (Ability.bind (PowerMeterAbility.super meter)) meter)
              home eq_refl)
    as (w' & Hw' & Hev & Hlen & _).
  eexists _, _, w'. split; [reflexivity|].
  split; [exact Hw'|]. split; [rewrite Hev | rewrite Hlen]; reflexivity.
Defined.

(** C5: [detach] after attach takes from the device every registration
    that carries the event name, handler and context of a registration
    made by the attach (one per configured property for the live-metrics
    ability, the single consumption registration for the history ability)
    and no other registration: the listeners that carry none of those
    triples all stay, in their order, and nothing else of the world
    changes.  On a device that held no registration with such a triple
    before the attach, [detach] gives back the world as it was. *)
Theorem detach_removes_attached_listeners :
  (forall (a : PowerMeterAbility.t) (w : World),
      PowerMeterAbility.bound a = true ->
      exists w1 a2 w2,
        PowerMeterAbility._setupEventHandlers a w = Some w1
        /\ d_events (device w1) =
           d_events (device w) ++ PowerMeterAbility.registered a
        /\ PowerMeterAbility.detach a w1 = Some (a2, w2)
        /\ w2 =
           with_events
             (List.filter
                (fun l =>
                   negb (registered_by (PowerMeterAbility.registered a) l))
                (d_events (device w))) w
        /\ (Forall
              (fun l => registered_by (PowerMeterAbility.registered a) l = false)
              (d_events (device w)) ->
            w2 = w))
  /\ (forall (a : PowerConsumptionAbility.t) (w : World),
      PowerConsumptionAbility.bound a = true ->
      exists w1 a2 w2,
        PowerConsumptionAbility._setupEventHandlers a w = Some w1
        /\ d_events (device w1) =
           d_events (device w) ++ PowerConsumptionAbility.registered a
        /\ PowerConsumptionAbility.detach a w1 = Some (a2, w2)
        /\ w2 =
           with_events
             (List.filter
                (fun l =>
                   negb (registered_by (PowerConsumptionAbility.registered a) l))
                (d_events (device w))) w
        /\ (Forall
              (fun l =>
                 registered_by (PowerConsumptionAbility.registered a) l = false)
              (d_events (device w)) ->
            w2 = w))
  /\ (forall (a : PowerConsumptionAbility.t) (w : World),
      exists a1 w1 a2 w2,
        PowerConsumptionAbility.setup a w = Some (a1, w1)
        /\ PowerConsumptionAbility.detach a1 w1 = Some (a2, w2)
        /\ d_events (device w2) =
           List.filter
             (fun l =>
                negb (registered_by (PowerConsumptionAbility.registered a) l))
             (d_events (device w))).
Proof.
  split; [|split].
  - intros a w Hb. eexists _, _, _.
    split; [apply (PowerMeter_setupEventHandlers_eq a w Hb)|].
    split; [reflexivity|].
    split; [apply (PowerMeter_detach_eq a _ Hb)|].
    split; [apply attach_detach_events|].
    intros Hfresh. rewrite attach_detach_events. by apply attach_detach_fresh.
  - intros a w Hb. eexists _, _, _.
    split; [apply (PowerConsumption_setupEventHandlers_eq a w Hb)|].
    split; [reflexivity|].
    split; [apply (PowerConsumption_detach_eq a _ Hb)|].
    split; [apply attach_detach_events|].
    intros Hfresh. rewrite attach_detach_events. by apply attach_detach_fresh.
  - intros a w.
    destruct (PowerConsumption_setup_events a w)
      as (a1 & w1 & Hs & Hb & Hr & _ & He).
    exists a1, w1. rewrite (PowerConsumption_detach_eq a1 w1 Hb).
    eexists _, _. split; [done|]. split; [reflexivity|].
    cbn [with_events with_device device d_events].
    rewrite Hr, He. apply filter_attached.
Qed.

Lemma detach_removes_attached_listeners_witness :
  exists a w w1 a2,
    PowerMeterAbility.setup meter home = Some (a, w)
    /\ PowerMeterAbility._setupEventHandlers a home = Some w1
    /\ d_events (device w1) =
       [Listener "change:relay0" (foreign 0) 7 false;
        Listener "change:powerMeter0" PowerMeter_consumptionChangeHandler 10 false;
        Listener "change:voltage0" PowerMeter_voltageChangeHandler 10 false]
    /\ PowerMeterAbility.detach a w1 = Some (a2, home).
Proof.
  destruct (proj1 detach_removes_attached_listeners
              (PowerMeterAbility.with_super
                 (Ability.bind (PowerMeterAbility.super meter)) meter)
              home eq_refl)
    as (w1 & a2 & w2 & Hw1 & Hev & Hd & _ & Hfresh).
  eexists _, _, w1, a2. split; [reflexivity|]. split; [exact Hw1|].
  split; [rewrite Hev; reflexivity|].
  rewrite Hd, Hfresh; [reflexivity|].
  repeat constructor.
Defined.

(** ** Setting up twice (C6) *)

(** C6: once a first [setup] of the history ability has gone through, the
    ability holds a history service, and a second [setup] holds the same
    history service, constructs none and leaves the services of the
    accessory as they are; when the ability held no history service and
    the accessory carried none before the first [setup], the accessory
    ends with exactly one history service, from exactly one construction. *)
Theorem setup_twice_keeps_history_service (a a1 : PowerConsumptionAbility.t)
    (w w1 : World) :
  PowerConsumptionAbility.setup a w = Some (a1, w1) ->
  exists h a2 w2,
    PowerConsumptionAbility._service a1 = Some h
    /\ PowerConsumptionAbility.setup a1 w1 = Some (a2, w2)
    /\ PowerConsumptionAbility._service a2 = Some h
    /\ services w2 = services w1
    /\ constructed w2 = constructed w1
    /\ (PowerConsumptionAbility._service a = None ->
        getService FakeGatoHistoryService w = None ->
        count_type FakeGatoHistoryService w2 = 1
        /\ length (constructed w2) = S (length (constructed w))).
Proof.
  intros Hs.
  destruct (PowerConsumptionAbility._service a) as [h0|] eqn:Hh.
  - rewrite (setup_again a h0 w Hh) in Hs. injection Hs as <- <-.
    exists h0.
    rewrite (setup_again
               (PowerConsumptionAbility.with_super
                  (Ability.bind (PowerConsumptionAbility.super a)) a)
               h0 _ Hh).
    eexists _, _.
    repeat split; try done.
  - destruct (setup_first a w Hh) as (h & w1' & Hs' & _).
    rewrite Hs' in Hs. injection Hs as <- <-.
    exists h.
    rewrite (setup_again
               (PowerConsumptionAbility.with_service h
                  (PowerConsumptionAbility.with_super
                     (Ability.bind (PowerConsumptionAbility.super a)) a))
               h w1' eq_refl).
    eexists _, _.
    split; [reflexivity|]. split; [reflexivity|]. split; [reflexivity|].
    split; [reflexivity|]. split; [reflexivity|].
    intros _ Hnone.
    destruct (setup_first_fresh a w Hh Hnone) as (a1 & w1 & Hs1 & H1 & H2).
    rewrite Hs' in Hs1. injection Hs1 as <- <-. by split.
Qed.

Lemma setup_twice_keeps_history_service_witness :
  exists a1 w1 h a2 w2,
    PowerConsumptionAbility.setup history home = Some (a1, w1)
    /\ PowerConsumptionAbility._service a1 = Some h
    /\ PowerConsumptionAbility.setup a1 w1 = Some (a2, w2)
    /\ PowerConsumptionAbility._service a2 = Some h
    /\ services w2 = services w1
    /\ constructed w2 = constructed w1
    /\ count_type FakeGatoHistoryService w2 = 1
    /\ length (constructed w2) = 1.
Proof.
  destruct (PowerConsumption_setup_events history home) as (a1 & w1 & Hs & _).
  destruct (setup_twice_keeps_history_service history a1 home w1 Hs)
    as (h & a2 & w2 & H1 & H2 & H3 & H4 & H5 & H6).
  exists a1, w1, h, a2, w2. repeat (split; [done|]).
  exact (H6 eq_refl eq_refl).
Defined.

(** ** Stale history services (C7) *)

Lemma splice_out_app (pre rest : list Service) (s : Service) :
  ~ In (s_oid s) (List.map s_oid pre) ->
  splice_out (s_oid s) (pre ++ s :: rest) = pre ++ rest.
Proof.
  induction pre as [|x pre IH]; simpl; intros Hnot.
  - by rewrite bool_decide_eq_true_2.
  - rewrite bool_decide_eq_false_2 by tauto. f_equal. apply IH. tauto.
Qed.

(** The loop at index [length pre], with the services [pre] behind the
    index and [suf] ahead of it, all distinct objects: [pre] stays and
    [suf] is swept. *)
Lemma for_of_services_sweep (fuel : nat) (pre suf : list Service) (w : World) :
  services w = pre ++ suf ->
  List.NoDup (List.map s_oid (pre ++ suf)) ->
  length suf <= fuel ->
  services (PowerConsumptionAbility.for_of_services fuel (length pre) w) =
  pre ++ sweep suf.
Proof.
  revert pre suf w. induction fuel as [|fuel IH]; intros pre suf w Hw Hnd Hlen.
  - destruct suf; [|simpl in Hlen; lia].
    cbn [PowerConsumptionAbility.for_of_services]. by rewrite Hw.
  - cbn [PowerConsumptionAbility.for_of_services].
    destruct suf as [|s rest].
    { rewrite (lookup_ge_None_2 (services w) (length pre))
        by (rewrite Hw, length_app; simpl; lia).
      by rewrite Hw. }
    assert (Hlook : services w !! length pre = Some s).
    { rewrite Hw, lookup_app_r by lia. by rewrite Nat.sub_diag. }
    rewrite Hlook. cbn [sweep].
    destruct (has_type FakeGatoHistoryService s) eqn:Hs.
    + assert (Hrm : services (removeService s w) = pre ++ rest).
      { cbn [removeService services with_services]. rewrite Hw.
        apply splice_out_app.
        rewrite List.map_app in Hnd. cbn [List.map] in Hnd.
        apply List.NoDup_remove_2 in Hnd. rewrite in_app_iff in Hnd. tauto. }
      assert (Hnd' : List.NoDup (List.map s_oid (pre ++ rest))).
      { rewrite List.map_app in *. cbn [List.map] in Hnd.
        by apply List.NoDup_remove_1 in Hnd. }
      destruct rest as [|r rest'].
      * rewrite app_nil_r in *.
        destruct fuel as [|fuel]; cbn [PowerConsumptionAbility.for_of_services];
          [done|].
        by rewrite Hrm, (lookup_ge_None_2 pre (S (length pre))) by lia.
      * replace (S (length pre)) with (length (pre ++ [r]))
          by (rewrite length_app; simpl; lia).
        rewrite (IH (pre ++ [r]) rest' (removeService s w)).
        -- by rewrite <- app_assoc.
        -- by rewrite <- app_assoc.
        -- by rewrite <- app_assoc.
        -- simpl in Hlen. lia.
    + replace (S (length pre)) with (length (pre ++ [s]))
        by (rewrite length_app; simpl; lia).
      rewrite (IH (pre ++ [s]) rest w).
      * by rewrite <- app_assoc.
      * by rewrite <- app_assoc.
      * by rewrite <- app_assoc.
      * simpl in Hlen. lia.
Qed.

Lemma sweep_clean (n : nat) (l : list Service) :
  length l <= n ->
  no_neighbours l = true ->
  List.filter (has_type FakeGatoHistoryService) (sweep l) = [].
Proof.
  revert l. induction n as [|n IH]; intros l Hlen Hnn.
  - destruct l; [done | simpl in Hlen; lia].
  - destruct l as [|s rest]; [done|].
    cbn [sweep]. destruct (has_type FakeGatoHistoryService s) eqn:Hs.
    + destruct rest as [|r rest']; [done|].
      cbn [no_neighbours] in Hnn. rewrite Hs in Hnn.
      destruct (has_type FakeGatoHistoryService r) eqn:Hr; [done|].
      cbn [List.filter]. rewrite Hr. apply IH; [simpl in Hlen; lia|].
      simpl in Hnn. destruct rest'; [done|].
      by apply andb_prop in Hnn as [_ ?].
    + cbn [List.filter]. rewrite Hs. apply IH; [simpl in Hlen; lia|].
      cbn [no_neighbours] in Hnn. by apply andb_prop in Hnn as [_ ?].
Qed.

(** Where the services are distinct objects and no two history services
    are neighbours, the loop leaves no history service. *)
Lemma for_of_services_clean (w : World) :
  List.NoDup (List.map s_oid (services w)) ->
  no_neighbours (services w) = true ->
  getService FakeGatoHistoryService
    (PowerConsumptionAbility.for_of_services (length (services w)) 0 w) = None.
Proof.
  intros Hnd Hnn. unfold getService.
  pose proof (for_of_services_sweep (length (services w)) [] (services w) w
                eq_refl Hnd (Nat.le_refl _)) as Hsw.
  cbn [length app] in Hsw. rewrite Hsw.
  pose proof (sweep_clean _ _ (Nat.le_refl _) Hnn) as Hc.
  destruct (List.find _ (sweep (services w))) as [x|] eqn:E; [|done].
  apply List.find_some in E as [Hin Hx].
  assert (H : In x (List.filter (has_type FakeGatoHistoryService)
                      (sweep (services w))))
    by (by apply List.filter_In).
  by rewrite Hc in H.
Qed.

(** There the first [setup] does what is meant: the stale history
    services are gone, and the one history service on the accessory is
    the new object. *)
Lemma setup_removes_separate_stale_services
    (a : PowerConsumptionAbility.t) (w : World) :
  PowerConsumptionAbility._service a = None ->
  List.NoDup (List.map s_oid (services w)) ->
  no_neighbours (services w) = true ->
  exists a1 w1,
    PowerConsumptionAbility.setup a w = Some (a1, w1)
    /\ history_oids w1 = [next_oid w]
    /\ constructed w1 =
       constructed w ++
       [("energy",
         mkOptions "fs" (storagePath w +:+ "/accessories")
           (d_id (device w) +:+ "_persist.json") 10)].
Proof.
  intros Hh Hnd Hnn.
  destruct (setup_first a w Hh) as (h & w1 & Hs & -> & Hc & _ & _ & Hone).
  eexists _, w1. split; [exact Hs|]. split; [|exact Hc].
  apply Hone. by apply for_of_services_clean.
Qed.

(** C7 on the cached plug, which carries two stale history services side
    by side (objects 1 and 2) and whose history ability holds no history
    service yet: the loop of [setup] removes object 1 and, the array having
    shifted under its index, never looks at object 2; [setup] then
    constructs one history service, with the 10-minute window and the file
    name made from the device id, and the accessory is left with the stale
    object 2 on it. *)
Theorem setup_skips_adjacent_stale_service :
  PowerConsumptionAbility._service history = None
  /\ history_oids cached = [1; 2]
  /\ no_neighbours (services cached) = false
  /\ List.map s_oid
       (services
          (PowerConsumptionAbility.for_of_services
             (length (services cached)) 0 cached)) = [0; 2]
  /\ exists a w,
      PowerConsumptionAbility.setup history cached = Some (a, w)
      /\ history_oids w = [2]
      /\ constructed w =
         [("energy",
           mkOptions "fs" "/var/lib/homebridge/accessories"
             "A1B2C3_persist.json" 10)].
Proof.
  split; [reflexivity|]. split; [reflexivity|]. split; [reflexivity|].
  split; [reflexivity|].
  eexists _, _. split; [reflexivity|]. split; reflexivity.
Qed.

(** * Further properties *)

(** ** Failure and edge behaviour of the handlers *)

(** X1: on a bound live-metrics ability each change handler throws exactly
    when the platform accessory has no power-meter service: [this.service]
    is then [undefined] and [getCharacteristic] cannot be read from it. *)
Theorem PowerMeter_handlers_need_service (a : PowerMeterAbility.t)
    (newValue : value) (w : World) :
  PowerMeterAbility.bound a = true ->
  (PowerMeterAbility._consumptionChangeHandler a newValue w = None
   <-> PowerMeterAbility.service w = None)
  /\ (PowerMeterAbility._electricCurrentChangeHandler a newValue w = None
      <-> PowerMeterAbility.service w = None)
  /\ (PowerMeterAbility._voltageChangeHandler a newValue w = None
      <-> PowerMeterAbility.service w = None).
Proof.
  intros Hb.
  unfold PowerMeterAbility._consumptionChangeHandler,
    PowerMeterAbility._electricCurrentChangeHandler,
    PowerMeterAbility._voltageChangeHandler, PowerMeterAbility.service,
    setValue.
  rewrite Hb.
  change (getService PowerMeterService (log_change _ newValue w))
    with (getService PowerMeterService w).
  destruct (getService PowerMeterService w); repeat split; congruence.
Qed.

Lemma PowerMeter_handlers_need_service_witness :
  PowerMeterAbility.service home = None
  /\ PowerMeterAbility._voltageChangeHandler
       (PowerMeterAbility.with_super
          (Ability.bind (PowerMeterAbility.super meter)) meter)
       (Num (num_of_Z 231)) home = None.
Proof.
  split; [reflexivity|].
  apply (PowerMeter_handlers_need_service
           (PowerMeterAbility.with_super
              (Ability.bind (PowerMeterAbility.super meter)) meter)
           (Num (num_of_Z 231)) home eq_refl).
  reflexivity.
Defined.

(** X2: the value a handler is called with is only logged.  What the
    handler writes is read from the device, so two calls that differ in
    the event's value alone leave the same services, the same device and,
    for the history ability, the same history service. *)
Theorem handlers_ignore_newValue :
  (forall (a : PowerMeterAbility.t) (v1 v2 : value) (w : World),
      (services <$> PowerMeterAbility._consumptionChangeHandler a v1 w
       = services <$> PowerMeterAbility._consumptionChangeHandler a v2 w)
      /\ (services <$> PowerMeterAbility._electricCurrentChangeHandler a v1 w
          = services <$> PowerMeterAbility._electricCurrentChangeHandler a v2 w)
      /\ (services <$> PowerMeterAbility._voltageChangeHandler a v1 w
          = services <$> PowerMeterAbility._voltageChangeHandler a v2 w)
      /\ (device <$> PowerMeterAbility._consumptionChangeHandler a v1 w
          = device <$> PowerMeterAbility._consumptionChangeHandler a v2 w))
  /\ (forall (a : PowerConsumptionAbility.t) (v1 v2 : value) (now : Z)
         (w : World),
      (fst <$> PowerConsumptionAbility._consumptionChangeHandler a v1 now w
       = fst <$> PowerConsumptionAbility._consumptionChangeHandler a v2 now w)
      /\ ((fun r => services r.2)
            <$> PowerConsumptionAbility._consumptionChangeHandler a v1 now w
          = (fun r => services r.2)
              <$> PowerConsumptionAbility._consumptionChangeHandler a v2 now w)).
Proof.
  split.
  - intros a v1 v2 w.
    unfold PowerMeterAbility._consumptionChangeHandler,
      PowerMeterAbility._electricCurrentChangeHandler,
      PowerMeterAbility._voltageChangeHandler, setValue.
    destruct (PowerMeterAbility.bound a); [|done].
    change (getService PowerMeterService (log_change _ _ w))
      with (getService PowerMeterService w).
    destruct (getService PowerMeterService w); done.
  - intros a v1 v2 now w.
    unfold PowerConsumptionAbility._consumptionChangeHandler.
    destruct (PowerConsumptionAbility.bound a); [|done].
    destruct (PowerConsumptionAbility.service a); done.
Qed.

Lemma PowerMeter_consumption_missing (a : PowerMeterAbility.t) (w : World) :
  d_props (device w) !! PowerMeterAbility._consumptionProperty a = None ->
  PowerMeterAbility.consumption a w = NaN.
Proof.
  intros H. unfold PowerMeterAbility.consumption, get. by rewrite H.
Qed.

Lemma PowerConsumption_consumption_missing
    (a : PowerConsumptionAbility.t) (w : World) :
  d_props (device w) !! PowerConsumptionAbility._consumptionProperty a = None ->
  PowerConsumptionAbility.consumption a w = NaN.
Proof.
  intros H. unfold PowerConsumptionAbility.consumption, get. by rewrite H.
Qed.

(** X3: the clamp does not catch a missing reading.  When the device has
    no property of the configured consumption name, the accessor yields
    NaN, and the handlers write NaN to the characteristic and log an entry
    whose power is NaN. *)
Theorem missing_reading_is_written_as_NaN :
  (forall (a : PowerMeterAbility.t) (newValue : value) (w : World) (s : Service),
      PowerMeterAbility.bound a = true ->
      PowerMeterAbility.service w = Some s ->
      d_props (device w) !! PowerMeterAbility._consumptionProperty a = None ->
      exists w',
        PowerMeterAbility._consumptionChangeHandler a newValue w = Some w'
        /\ PowerMeterAbility.service w' =
           Some (setCharacteristic ConsumptionCharacteristic (Num NaN) s))
  /\ (forall (a : PowerConsumptionAbility.t) (newValue : value) (now : Z)
         (w : World) (h : FakeGatoHistory),
      PowerConsumptionAbility.bound a = true ->
      PowerConsumptionAbility.service a = Some h ->
      d_props (device w) !! PowerConsumptionAbility._consumptionProperty a
      = None ->
      exists a' w' h',
        PowerConsumptionAbility._consumptionChangeHandler a newValue now w =
        Some (a', w')
        /\ PowerConsumptionAbility.service a' = Some h'
        /\ h_written h' = h_written h ++ [(TotalConsumptionCharacteristic, Num NaN)]
        /\ entries h' =
           entries h ++ [mkEntry (Math_round (inject_Z now / 1000)%Q) NaN]).
Proof.
  split.
  - intros a newValue w s Hb Hs Hmiss.
    unfold PowerMeterAbility._consumptionChangeHandler. rewrite Hb.
    destruct (PowerMeter_handler_spec ConsumptionCharacteristic
                (Num (PowerMeterAbility.consumption a w))
                (PowerMeterAbility._consumptionProperty a) newValue w s Hs)
      as (w' & Hw' & Hget & _).
    exists w'. rewrite (PowerMeter_consumption_missing a w Hmiss) in Hw', Hget.
    split; [|exact Hget]. rewrite <- Hw'. f_equal. f_equal.
    exact (PowerMeter_consumption_missing a w Hmiss).
  - intros a newValue now w h Hb Hh Hmiss.
    rewrite (PowerConsumption_handler_eq a newValue now w h Hb Hh).
    rewrite (PowerConsumption_consumption_missing a w Hmiss).
    eexists _, _, _. by repeat split.
Qed.

Lemma missing_reading_is_written_as_NaN_witness :
  exists a w h,
    PowerConsumptionAbility.setup counter home = Some (a, w)
    /\ PowerConsumptionAbility.service a = Some h
    /\ d_props (device w) !! "energyCounter0" = None
    /\ exists a' w' h',
        PowerConsumptionAbility._consumptionChangeHandler a undefined 1500 w =
        Some (a', w')
        /\ PowerConsumptionAbility.service a' = Some h'
        /\ h_written h' =
           h_written h ++ [(TotalConsumptionCharacteristic, Num NaN)]
        /\ entries h' =
           entries h ++ [mkEntry (Math_round (inject_Z 1500 / 1000)%Q) NaN].
Proof.
  eexists _, _, _. split; [reflexivity|]. split; [reflexivity|].
  split; [reflexivity|].
  apply (proj2 missing_reading_is_written_as_NaN); reflexivity.
Defined.

(** ** Timestamps *)

(** X4: the timestamp of the entry a change leaves is within half a second
    of the time of the call: 1000 t - 500 <= now < 1000 t + 500 for a call
    at [now] milliseconds. *)
Theorem entry_timestamp_within_half_second (a : PowerConsumptionAbility.t)
    (newValue : value) (now : Z) (w : World) (h : FakeGatoHistory) :
  PowerConsumptionAbility.bound a = true ->
  PowerConsumptionAbility.service a = Some h ->
  exists a' w' h' e,
    PowerConsumptionAbility._consumptionChangeHandler a newValue now w =
    Some (a', w')
    /\ PowerConsumptionAbility.service a' = Some h'
    /\ entries h' = entries h ++ [e]
    /\ (1000 * time e - 500 <= now < 1000 * time e + 500)%Z.
Proof.
  intros Hb Hh. rewrite (PowerConsumption_handler_eq a newValue now w h Hb Hh).
  eexists _, _, _, _. split; [reflexivity|]. split; [reflexivity|].
  split; [reflexivity|]. cbn [time]. rewrite Math_round_seconds.
  pose proof (Z.div_mod (now + 500) 1000 ltac:(lia)).
  pose proof (Z.mod_pos_bound (now + 500) 1000 ltac:(lia)). lia.
Qed.

Lemma entry_timestamp_within_half_second_witness :
  exists a w h,
    PowerConsumptionAbility.setup history home = Some (a, w)
    /\ PowerConsumptionAbility.service a = Some h
    /\ exists a' w' h' e,
        PowerConsumptionAbility._consumptionChangeHandler a undefined 1499 w =
        Some (a', w')
        /\ PowerConsumptionAbility.service a' = Some h'
        /\ entries h' = entries h ++ [e]
        /\ (1000 * time e - 500 <= 1499 < 1000 * time e + 500)%Z.
Proof.
  eexists _, _, _. split; [reflexivity|]. split; [reflexivity|].
  apply entry_timestamp_within_half_second; reflexivity.
Defined.

(** ** Runs of changes *)

Lemma get_set_property (name : string) (v : value) (w : World) :
  get (device (set_property name v w)) name = v.
Proof. unfold get, set_property. simpl. by rewrite lookup_insert_eq. Qed.

(** A run of changes on a history ability that was set up, in full. *)
Lemma consumption_changes_spec (events : list (value * Z)) :
  forall (a : PowerConsumptionAbility.t) (w : World) (h : FakeGatoHistory),
    PowerConsumptionAbility.bound a = true ->
    PowerConsumptionAbility.service a = Some h ->
    exists a' w' h',
      consumption_changes events a w = Some (a', w')
      /\ PowerConsumptionAbility.bound a' = true
      /\ PowerConsumptionAbility.service a' = Some h'
      /\ entries h' = entries h ++ List.map entry_of events
      /\ h_written h' = h_written h ++ List.map write_of events
      /\ services w' = services w
      /\ d_events (device w') = d_events (device w)
      /\ constructed w' = constructed w.
Proof.
  induction events as [|[v now] rest IH]; intros a w h Hb Hh.
  - exists a, w, h. simpl. rewrite !app_nil_r. by repeat split.
  - cbn [consumption_changes].
    rewrite (PowerConsumption_handler_eq a v now _ h Hb Hh).
    unfold mbind, option_bind. cbv beta iota.
    rewrite PowerConsumption_consumption_eq, get_set_property.
    match goal with
    | |- context [consumption_changes rest ?a1 ?w1] =>
        destruct (IH a1 w1 _ Hb eq_refl)
          as (a' & w' & h' & Hrun & Hb' & Hh' & He & Hw & Hs & Hev & Hc)
    end.
    exists a', w', h'. split; [exact Hrun|]. split; [exact Hb'|].
    split; [exact Hh'|].
    split; [rewrite He; simpl; by rewrite <- app_assoc|].
    split; [rewrite Hw; simpl; by rewrite <- app_assoc|].
    by repeat split.
Qed.

(** X5: a run of consumption changes on a history ability that was set up
    never fails; it leaves one entry and one write per change, in the order
    of the changes, each carrying the clamped value the device had taken
    and the rounded time of its call, and it leaves the services of the
    accessory, the listeners of the device and the constructions as they
    were. *)
Theorem consumption_changes_log_in_order (events : list (value * Z))
    (a : PowerConsumptionAbility.t) (w : World) (h : FakeGatoHistory) :
  PowerConsumptionAbility.bound a = true ->
  PowerConsumptionAbility.service a = Some h ->
  exists a' w' h',
    consumption_changes events a w = Some (a', w')
    /\ PowerConsumptionAbility.service a' = Some h'
    /\ entries h' = entries h ++ List.map entry_of events
    /\ h_written h' = h_written h ++ List.map write_of events
    /\ services w' = services w
    /\ d_events (device w') = d_events (device w)
    /\ constructed w' = constructed w.
Proof.
  intros Hb Hh.
  destruct (consumption_changes_spec events a w h Hb Hh)
    as (a' & w' & h' & Hrun & _ & Hrest).
  by exists a', w', h'.
Qed.

Lemma consumption_changes_log_in_order_witness :
  exists a w h a' w' h',
    PowerConsumptionAbility.setup history home = Some (a, w)
    /\ PowerConsumptionAbility.service a = Some h
    /\ consumption_changes
         [(Num (num_of_Z 70000), 1499%Z); (undefined, 1500%Z);
          (Num (num_of_Z (-3)), 61000%Z)] a w = Some (a', w')
    /\ PowerConsumptionAbility.service a' = Some h'
    /\ entries h' =
       [mkEntry 1 (num_of_Z 65535); mkEntry 2 NaN; mkEntry 61 (num_of_Z 0)]
    /\ services w' = services w.
Proof.
  destruct (PowerConsumption_setup_events history home)
    as (a & w & Hs & Hb & _ & [h Hh] & _).
  destruct (consumption_changes_log_in_order
              [(Num (num_of_Z 70000), 1499%Z); (undefined, 1500%Z);
               (Num (num_of_Z (-3)), 61000%Z)] a w h Hb Hh)
    as (a' & w' & h' & Hrun & Hh' & He & _ & Hsv & _).
  exists a, w, h, a', w', h'. repeat (split; [done|]). split; [|done].
  rewrite He.
  assert (Hh0 : entries h = []).
  { destruct (setup_first history home eq_refl) as (h0 & w0 & Hs0 & -> & _).
    rewrite Hs0 in Hs. injection Hs as <- <-. by injection Hh as <-. }
  rewrite Hh0. reflexivity.
Defined.

Lemma Math_round_seconds_mono (t1 t2 : Z) :
  (t1 <= t2)%Z ->
  (Math_round (inject_Z t1 / 1000)%Q <= Math_round (inject_Z t2 / 1000)%Q)%Z.
Proof.
  intros H. rewrite !Math_round_seconds. apply Z.div_le_mono; lia.
Qed.

Lemma entry_times_sorted (events : list (value * Z)) :
  StronglySorted Z.le (List.map snd events) ->
  StronglySorted Z.le (List.map time (List.map entry_of events)).
Proof.
  induction events as [|[v now] rest IH]; simpl; intros H; [constructor|].
  apply StronglySorted_inv in H as [Hrest Hall].
  constructor; [by apply IH|].
  rewrite List.Forall_forall in *. intros t Ht.
  apply List.in_map_iff in Ht as (e & <- & He).
  apply List.in_map_iff in He as ([v' now'] & <- & Hin).
  simpl. apply Math_round_seconds_mono. apply Hall.
  apply List.in_map_iff. by exists (v', now').
Qed.

(** X6: when the clock does not go back between the changes of a run, the
    timestamps of the entries the run appends do not go back either. *)
Theorem consumption_changes_timestamps_sorted (events : list (value * Z))
    (a : PowerConsumptionAbility.t) (w : World) (h : FakeGatoHistory) :
  PowerConsumptionAbility.bound a = true ->
  PowerConsumptionAbility.service a = Some h ->
  StronglySorted Z.le (List.map snd events) ->
  exists a' w' h' es,
    consumption_changes events a w = Some (a', w')
    /\ PowerConsumptionAbility.service a' = Some h'
    /\ entries h' = entries h ++ es
    /\ length es = length events
    /\ StronglySorted Z.le (List.map time es).
Proof.
  intros Hb Hh Hsorted.
  destruct (consumption_changes_spec events a w h Hb Hh)
    as (a' & w' & h' & Hrun & _ & Hh' & He & _).
  exists a', w', h', (List.map entry_of events).
  split; [done|]. split; [done|]. split; [done|].
  split; [by rewrite length_map | by apply entry_times_sorted].
Qed.

Lemma consumption_changes_timestamps_sorted_witness :
  exists a w h a' w' h' es,
    PowerConsumptionAbility.setup history home = Some (a, w)
    /\ PowerConsumptionAbility.service a = Some h
    /\ consumption_changes [(undefined, 1499%Z); (undefined, 1500%Z)] a w =
       Some (a', w')
    /\ PowerConsumptionAbility.service a' = Some h'
    /\ entries h' = entries h ++ es
    /\ length es = 2
    /\ StronglySorted Z.le (List.map time es).
Proof.
  destruct (PowerConsumption_setup_events history home)
    as (a & w & Hs & Hb & _ & [h Hh] & _).
  assert (Hsorted : StronglySorted Z.le
                      (List.map snd [(undefined, 1499%Z); (undefined, 1500%Z)])).
  { repeat constructor. simpl. lia. }
  destruct (consumption_changes_timestamps_sorted _ a w h Hb Hh Hsorted)
    as (a' & w' & h' & es & H1 & H2 & H3 & H4 & H5).
  by exists a, w, h, a', w', h', es.
Defined.

(** ** The cleanup loop and the first setup *)

Lemma for_of_services_sweep_all (w : World) :
  List.NoDup (List.map s_oid (services w)) ->
  PowerConsumptionAbility.for_of_services (length (services w)) 0 w =
  with_services (sweep (services w)) w.
Proof.
  intros Hnd.
  destruct (for_of_services_frame (length (services w)) 0 w) as [l Hl].
  rewrite Hl. f_equal.
  pose proof (for_of_services_sweep (length (services w)) [] (services w) w
                eq_refl Hnd (Nat.le_refl _)) as Hsw.
  cbn [length app] in Hsw. by rewrite Hl in Hsw.
Qed.

(** X7: on an accessory whose services are distinct objects, the loop of
    [setup] turns the service array into its sweep: every history service
    the loop comes to is removed and the service right behind it is passed
    over; the loop stops by itself, so that further steps change nothing,
    and it changes nothing but the service array. *)
Theorem cleanup_loop_sweeps (w : World) :
  List.NoDup (List.map s_oid (services w)) ->
  PowerConsumptionAbility.for_of_services (length (services w)) 0 w =
  with_services (sweep (services w)) w
  /\ forall k,
      PowerConsumptionAbility.for_of_services (length (services w) + k) 0 w =
      with_services (sweep (services w)) w.
Proof.
  intros Hnd. split; [by apply for_of_services_sweep_all|].
  intros k. rewrite for_of_services_fuel by lia.
  by apply for_of_services_sweep_all.
Qed.

Lemma cleanup_loop_sweeps_witness :
  List.map s_oid (services cached) = [0; 1; 2]
  /\ List.map s_oid
       (services
          (PowerConsumptionAbility.for_of_services (length (services cached)) 0
             cached)) = [0; 2]
  /\ List.map s_oid
       (services
          (PowerConsumptionAbility.for_of_services
             (length (services cached_apart)) 0 cached_apart)) = [0].
Proof.
  split; [reflexivity|].
  assert (Hc : List.NoDup (List.map s_oid (services cached))).
  { repeat constructor; simpl; intuition lia. }
  assert (Ha : List.NoDup (List.map s_oid (services cached_apart))).
  { repeat constructor; simpl; intuition lia. }
  rewrite (proj1 (cleanup_loop_sweeps cached Hc)).
  rewrite (proj1 (cleanup_loop_sweeps cached_apart Ha)).
  split; reflexivity.
Defined.

Lemma find_app_None {A} (p : A -> bool) (l l' : list A) :
  List.find p l = None -> List.find p (l ++ l') = List.find p l'.
Proof.
  induction l as [|x l IH]; simpl; [done|]. destruct (p x); [done | exact IH].
Qed.

(** The service array after the first [setup], from the array the loop
    leaves: the history service found there, or else a new one put at the
    end, takes the seed of the total consumption. *)
Lemma setup_first_services (a : PowerConsumptionAbility.t) (w : World) :
  PowerConsumptionAbility._service a = None ->
  exists a1 w1,
    PowerConsumptionAbility.setup a w = Some (a1, w1)
    /\ services w1 =
       update_first FakeGatoHistoryService
         (setCharacteristic TotalConsumptionCharacteristic
            (Num (PowerConsumptionAbility.consumption a w)))
         (let l :=
            services
              (PowerConsumptionAbility.for_of_services (length (services w)) 0 w)
          in
          match List.find (has_type FakeGatoHistoryService) l with
          | Some _ => l
          | None =>
              l ++ [mkService (next_oid w) FakeGatoHistoryService
                      (Some "energy") []]
          end).
Proof.
  intros Hnone. unfold PowerConsumptionAbility.setup.
  change (PowerConsumptionAbility._service
            (PowerConsumptionAbility.with_super
               (Ability.bind (PowerConsumptionAbility.super a)) a))
    with (PowerConsumptionAbility._service a).
  rewrite Hnone.
  set (w0 := log_call info _ w).
  destruct (for_of_services_frame (length (services w0)) 0 w0) as [l Hl].
  assert (Hlw : services
                  (PowerConsumptionAbility.for_of_services
                     (length (services w)) 0 w) = l).
  { rewrite (for_of_services_services _ _ w w0 eq_refl).
    change (length (services w)) with (length (services w0)). by rewrite Hl. }
  rewrite Hl, Hlw.
  unfold PowerConsumptionAbility._createService,
    PowerConsumptionAbility.bound. simpl.
  unfold new_FakeGatoHistoryService, getService. simpl.
  destruct (List.find (has_type FakeGatoHistoryService) l) as [s|] eqn:Hfind;
    simpl; eexists _, _; split; reflexivity.
Qed.

Lemma sweep_others (n : nat) (l : list Service) :
  length l <= n -> other_services (sweep l) = other_services l.
Proof.
  revert l. induction n as [|n IH]; intros l Hlen.
  - destruct l; [done | simpl in Hlen; lia].
  - destruct l as [|s rest]; [done|].
    cbn [sweep]. unfold other_services in *.
    destruct (has_type FakeGatoHistoryService s) eqn:Hs.
    + cbn [List.filter]. rewrite Hs. cbn [negb].
      destruct rest as [|r rest']; [done|].
      cbn [List.filter]. rewrite IH by (simpl in Hlen; lia). done.
    + cbn [List.filter]. rewrite Hs. cbn [negb].
      by rewrite IH by (simpl in Hlen; lia).
Qed.

Lemma other_services_update_first (f : Service -> Service) (l : list Service) :
  (forall x, UUID (f x) = UUID x) ->
  other_services (update_first FakeGatoHistoryService f l) = other_services l.
Proof.
  intros Hu. unfold other_services.
  induction l as [|x l IH]; simpl; [done|].
  destruct (has_type FakeGatoHistoryService x) eqn:Hx; simpl.
  - assert (E : has_type FakeGatoHistoryService (f x) = true)
      by (unfold has_type in *; by rewrite Hu).
    by rewrite E.
  - by rewrite Hx, IH.
Qed.

(** X8: whatever state the history ability is in, [setup] on an accessory
    whose services are distinct objects neither removes nor changes a
    service that is not a history service: those are the same, in the same
    order, afterwards. *)
Theorem setup_keeps_other_services (a : PowerConsumptionAbility.t) (w : World) :
  List.NoDup (List.map s_oid (services w)) ->
  exists a1 w1,
    PowerConsumptionAbility.setup a w = Some (a1, w1)
    /\ other_services (services w1) = other_services (services w).
Proof.
  intros Hnd. destruct (PowerConsumptionAbility._service a) as [h|] eqn:Hh.
  - rewrite (setup_again a h w Hh). by eexists _, _.
  - destruct (setup_first_services a w Hh) as (a1 & w1 & Hs & Hsv).
    exists a1, w1. split; [exact Hs|]. rewrite Hsv.
    rewrite other_services_update_first by done.
    rewrite (for_of_services_sweep_all w Hnd).
    cbn [services with_services].
    cbv zeta.
    destruct (List.find (has_type FakeGatoHistoryService) (sweep (services w))).
    + by apply sweep_others with (n := length (services w)).
    + unfold other_services. rewrite List.filter_app. simpl.
      rewrite app_nil_r. by apply (sweep_others (length (services w))).
Qed.

Lemma setup_keeps_other_services_witness :
  exists a1 w1,
    PowerConsumptionAbility.setup history cached = Some (a1, w1)
    /\ other_services (services w1) =
       [mkService 0 (OtherService "AccessoryInformation") None []].
Proof.
  assert (Hc : List.NoDup (List.map s_oid (services cached))).
  { repeat constructor; simpl; intuition lia. }
  destruct (setup_keeps_other_services history cached Hc)
    as (a1 & w1 & Hs & Ho).
  exists a1, w1. split; [exact Hs|]. rewrite Ho. reflexivity.
Defined.

(** X9: on an accessory whose services are distinct objects older than
    the next object, with no two history services next to each other, the
    first [setup] removes every history service that was there: none of
    them is among the history services afterwards, which are the one new
    object. *)
Theorem setup_removes_stale_services_apart (a : PowerConsumptionAbility.t)
    (w : World) :
  PowerConsumptionAbility._service a = None ->
  List.NoDup (List.map s_oid (services w)) ->
  no_neighbours (services w) = true ->
  Forall (fun s => s_oid s < next_oid w) (services w) ->
  exists a1 w1,
    PowerConsumptionAbility.setup a w = Some (a1, w1)
    /\ history_oids w1 = [next_oid w]
    /\ forall s, In s (services w) -> ~ In (s_oid s) (history_oids w1).
Proof.
  intros Hh Hnd Hnn Hold.
  destruct (setup_removes_separate_stale_services a w Hh Hnd Hnn)
    as (a1 & w1 & Hs & Ho & _).
  exists a1, w1. split; [exact Hs|]. split; [exact Ho|].
  intros s Hin. rewrite Ho. simpl. intros [E|[]].
  rewrite List.Forall_forall in Hold. specialize (Hold s Hin). lia.
Qed.

Lemma setup_removes_stale_services_apart_witness :
  history_oids cached_apart = [1; 2]
  /\ exists a1 w1,
      PowerConsumptionAbility.setup history cached_apart = Some (a1, w1)
      /\ history_oids w1 = [3].
Proof.
  split; [reflexivity|].
  assert (Hnd : List.NoDup (List.map s_oid (services cached_apart))).
  { repeat constructor; simpl; intuition lia. }
  assert (Hold : Forall (fun s => s_oid s < next_oid cached_apart)
                   (services cached_apart)).
  { repeat constructor; simpl; lia. }
  destruct (setup_removes_stale_services_apart history cached_apart
              eq_refl Hnd eq_refl Hold) as (a1 & w1 & Hs & Ho & _).
  by exists a1, w1.
Defined.

(** X10: whatever services the accessory carries, the first [setup] of a
    history ability makes exactly one call of the history-service
    constructor, for the kind 'energy' with the file store, the directory
    'accessories' under the host's storage path, the file name made from
    the device id and the ten-minute window, and keeps the new object,
    empty, as its history service. *)
Theorem first_setup_constructs_history_service
    (a : PowerConsumptionAbility.t) (w : World) :
  PowerConsumptionAbility._service a = None ->
  exists a1 w1,
    PowerConsumptionAbility.setup a w = Some (a1, w1)
    /\ PowerConsumptionAbility._service a1 =
       Some (mkHistory "energy"
               (mkOptions "fs" (storagePath w +:+ "/accessories")
                  (d_id (device w) +:+ "_persist.json") 10) [] [])
    /\ constructed w1 =
       constructed w ++
       [("energy",
         mkOptions "fs" (storagePath w +:+ "/accessories")
           (d_id (device w) +:+ "_persist.json") 10)].
Proof.
  intros Hh.
  destruct (setup_first a w Hh) as (h & w1 & Hs & -> & Hc & _).
  eexists _, w1. split; [exact Hs|]. by split.
Qed.

Lemma first_setup_constructs_history_service_witness :
  exists a1 w1,
    PowerConsumptionAbility.setup history cached = Some (a1, w1)
    /\ PowerConsumptionAbility._service a1 =
       Some (mkHistory "energy"
               (mkOptions "fs" "/var/lib/homebridge/accessories"
                  "A1B2C3_persist.json" 10) [] [])
    /\ length (constructed w1) = 1.
Proof.
  destruct (first_setup_constructs_history_service history cached eq_refl)
    as (a1 & w1 & Hs & Hh & Hc).
  exists a1, w1. split; [exact Hs|]. split; [exact Hh|]. by rewrite Hc.
Defined.

(** X11: the first [setup] seeds the total consumption on the accessory:
    afterwards the accessory has a history service, and the last write on
    the first one is the clamped consumption reading, to the
    total-consumption characteristic. *)
Theorem first_setup_seeds_total_consumption
    (a : PowerConsumptionAbility.t) (w : World) :
  PowerConsumptionAbility._service a = None ->
  exists a1 w1 s before,
    PowerConsumptionAbility.setup a w = Some (a1, w1)
    /\ getService FakeGatoHistoryService w1 = Some s
    /\ written s =
       before ++
       [(TotalConsumptionCharacteristic,
         Num (clamp_spec
                (ToNumber
                   (get (device w)
                      (PowerConsumptionAbility._consumptionProperty a)))))].
Proof.
  intros Hh.
  destruct (setup_first_services a w Hh) as (a1 & w1 & Hs & Hsv).
  rewrite PowerConsumption_consumption_eq in Hsv.
  cbv zeta in Hsv.
  destruct (List.find (has_type FakeGatoHistoryService)
              (services
                 (PowerConsumptionAbility.for_of_services
                    (length (services w)) 0 w))) as [s|] eqn:Hfind.
  - exists a1, w1, (setCharacteristic TotalConsumptionCharacteristic
                      (Num (clamp_spec
                              (ToNumber
                                 (get (device w)
                                    (PowerConsumptionAbility._consumptionProperty
                                       a))))) s), (written s).
    split; [exact Hs|]. split; [|reflexivity].
    unfold getService. rewrite Hsv. by apply find_update_first.
  - eexists a1, w1, _, []. split; [exact Hs|]. split.
    + unfold getService. rewrite Hsv. apply find_update_first; [done|].
      rewrite (find_app_None _ _ _ Hfind). reflexivity.
    + reflexivity.
Qed.

Lemma first_setup_seeds_total_consumption_witness :
  exists a1 w1 s,
    PowerConsumptionAbility.setup history home = Some (a1, w1)
    /\ getService FakeGatoHistoryService w1 = Some s
    /\ written s =
       [(TotalConsumptionCharacteristic, Num (Finite (Q2Qc (7 # 2))))].
Proof.
  destruct (first_setup_seeds_total_consumption history home eq_refl)
    as (a1 & w1 & s & before & Hs & Hg & Hw).
  exists a1, w1, s. split; [exact Hs|]. split; [exact Hg|].
  assert (E : PowerConsumptionAbility.setup history home
              = Some (a1, w1)) by exact Hs.
  vm_compute in E. injection E as <- <-.
  vm_compute in Hg. injection Hg as <-. reflexivity.
Defined.

(** X12: [setup] leaves the history ability ready for changes: after any
    [setup], the consumption handler goes through in whatever state the
    accessory and the device are by then, also with no service at all on
    the accessory. *)
Theorem handler_runs_after_setup (a a1 : PowerConsumptionAbility.t)
    (w w1 w' : World) (newValue : value) (now : Z) :
  PowerConsumptionAbility.setup a w = Some (a1, w1) ->
  exists a2 w2,
    PowerConsumptionAbility._consumptionChangeHandler a1 newValue now w' =
    Some (a2, w2)
    /\ PowerConsumptionAbility.bound a2 = true
    /\ is_Some (PowerConsumptionAbility.service a2).
Proof.
  intros Hs.
  destruct (PowerConsumption_setup_events a w)
    as (a' & w0 & Hs' & Hb & _ & [h Hh] & _).
  rewrite Hs in Hs'. injection Hs' as <- <-.
  rewrite (PowerConsumption_handler_eq a1 newValue now w' h Hb Hh).
  eexists _, _. split; [reflexivity|]. split; [exact Hb | by eexists].
Qed.

Lemma handler_runs_after_setup_witness :
  exists a1 w1 a2 w2,
    PowerConsumptionAbility.setup history home = Some (a1, w1)
    /\ PowerConsumptionAbility._consumptionChangeHandler a1 undefined 0
         (with_services [] w1) = Some (a2, w2).
Proof.
  destruct (PowerConsumption_setup_events history home)
    as (a1 & w1 & Hs & _).
  destruct (handler_runs_after_setup history a1 home w1 (with_services [] w1)
              undefined 0 Hs) as (a2 & w2 & Hh & _).
  by exists a1, w1, a2, w2.
Defined.

(** X13: [setup] registers the consumption listener every time it is
    called, also when it finds its history service in place.  After two
    calls the device holds the registration twice; one [detach] then
    removes both. *)
Theorem setup_twice_registers_twice (a : PowerConsumptionAbility.t) (w : World) :
  exists a1 w1 a2 w2 a3 w3,
    PowerConsumptionAbility.setup a w = Some (a1, w1)
    /\ PowerConsumptionAbility.setup a1 w1 = Some (a2, w2)
    /\ d_events (device w2) =
       d_events (device w) ++
       PowerConsumptionAbility.registered a ++
       PowerConsumptionAbility.registered a
    /\ PowerConsumptionAbility.detach a2 w2 = Some (a3, w3)
    /\ d_events (device w3) =
       List.filter
         (fun l => negb (registered_by (PowerConsumptionAbility.registered a) l))
         (d_events (device w)).
Proof.
  destruct (PowerConsumption_setup_events a w)
    as (a1 & w1 & Hs1 & _ & Hr1 & _ & He1).
  destruct (PowerConsumption_setup_events a1 w1)
    as (a2 & w2 & Hs2 & Hb2 & Hr2 & _ & He2).
  exists a1, w1, a2, w2. rewrite (PowerConsumption_detach_eq a2 w2 Hb2).
  eexists _, _. split; [done|]. split; [done|].
  rewrite Hr2, Hr1, He2, Hr1, He1.
  split; [by rewrite <- app_assoc|]. split; [reflexivity|].
  cbn [with_events with_device device d_events].
  by rewrite !filter_attached.
Qed.

(** ** What detach and the handlers leave alone *)

Lemma PowerMeter_registered_context (a : PowerMeterAbility.t) (l : listener) :
  registered_by (PowerMeterAbility.registered a) l = true ->
  l_context l = PowerMeterAbility.this a.
Proof.
  unfold registered_by, PowerMeterAbility.registered.
  intros H. apply existsb_exists in H as (r & Hin & Hm).
  unfold same_registration, matches in Hm.
  apply andb_prop in Hm as [_ Hc]. apply bool_decide_eq_true_1 in Hc.
  rewrite Hc.
  destruct (truthy (PowerMeterAbility._electricCurrentProperty a)),
           (truthy (PowerMeterAbility._voltageProperty a));
    simpl in Hin; intuition (subst; reflexivity).
Qed.

Lemma PowerConsumption_registered_context
    (a : PowerConsumptionAbility.t) (l : listener) :
  registered_by (PowerConsumptionAbility.registered a) l = true ->
  l_context l = PowerConsumptionAbility.this a.
Proof.
  unfold registered_by, PowerConsumptionAbility.registered. simpl.
  rewrite orb_false_r. unfold same_registration, matches. simpl.
  intros Hm. apply andb_prop in Hm as [_ Hc].
  by apply bool_decide_eq_true_1 in Hc.
Qed.

Lemma filter_keeps_foreign (regs L : list listener) (this : nat) :
  (forall l, registered_by regs l = true -> l_context l = this) ->
  (forall l, In l L -> l_context l <> this ->
             In l (List.filter (fun l => negb (registered_by regs l)) L))
  /\ (forall l, In l (List.filter (fun l => negb (registered_by regs l)) L) ->
                In l L).
Proof.
  intros Hctx. split.
  - intros l Hin Hne. apply List.filter_In. split; [done|].
    destruct (registered_by regs l) eqn:E; [|done].
    by apply Hctx in E.
  - intros l Hin. by apply List.filter_In in Hin as [? _].
Qed.

(** X14: [detach] of a bound ability never removes a listener that was
    registered with another context object, whatever its event and
    function, and never adds one; it leaves the services of the accessory
    and the properties of the device as they are. *)
Theorem detach_keeps_foreign_listeners :
  (forall (a : PowerMeterAbility.t) (w : World),
      PowerMeterAbility.bound a = true ->
      exists a' w',
        PowerMeterAbility.detach a w = Some (a', w')
        /\ (forall l, In l (d_events (device w)) ->
                      l_context l <> PowerMeterAbility.this a ->
                      In l (d_events (device w')))
        /\ (forall l, In l (d_events (device w')) -> In l (d_events (device w)))
        /\ services w' = services w
        /\ d_props (device w') = d_props (device w))
  /\ (forall (a : PowerConsumptionAbility.t) (w : World),
      PowerConsumptionAbility.bound a = true ->
      exists a' w',
        PowerConsumptionAbility.detach a w = Some (a', w')
        /\ (forall l, In l (d_events (device w)) ->
                      l_context l <> PowerConsumptionAbility.this a ->
                      In l (d_events (device w')))
        /\ (forall l, In l (d_events (device w')) -> In l (d_events (device w)))
        /\ services w' = services w
        /\ d_props (device w') = d_props (device w)).
Proof.
  split.
  - intros a w Hb. rewrite (PowerMeter_detach_eq a w Hb).
    eexists _, _. split; [reflexivity|].
    cbn [with_events with_device device d_events services d_props].
    destruct (filter_keeps_foreign (PowerMeterAbility.registered a)
                (d_events (device w)) (PowerMeterAbility.this a)
                (PowerMeter_registered_context a)) as [H1 H2].
    by repeat split.
  - intros a w Hb. rewrite (PowerConsumption_detach_eq a w Hb).
    eexists _, _. split; [reflexivity|].
    cbn [with_events with_device device d_events services d_props].
    destruct (filter_keeps_foreign (PowerConsumptionAbility.registered a)
                (d_events (device w)) (PowerConsumptionAbility.this a)
                (PowerConsumption_registered_context a)) as [H1 H2].
    by repeat split.
Qed.

Lemma detach_keeps_foreign_listeners_witness :
  exists a w a' w',
    PowerMeterAbility.setup meter home = Some (a, w)
    /\ PowerMeterAbility.detach a w = Some (a', w')
    /\ In (Listener "change:relay0" (foreign 0) 7 false) (d_events (device w')).
Proof.
  destruct (PowerMeter_setup_attached meter home)
    as (a & w & Hs & Hb & _ & _ & He).
  destruct (proj1 detach_keeps_foreign_listeners a w Hb)
    as (a' & w' & Hd & Hkeep & _).
  exists a, w, a', w'. split; [exact Hs|]. split; [exact Hd|].
  apply Hkeep.
  - rewrite He. apply in_app_iff. left. by left.
  - assert (E : PowerMeterAbility.setup meter home = Some (a, w)) by exact Hs.
    vm_compute in E. injection E as <- _. simpl. lia.
Defined.

Lemma filter_update_first_other (ty : service_type) (f : Service -> Service)
    (l : list Service) :
  (forall x, UUID (f x) = UUID x) ->
  List.filter (fun s => negb (has_type ty s)) (update_first ty f l) =
  List.filter (fun s => negb (has_type ty s)) l.
Proof.
  intros Hu. induction l as [|x l IH]; simpl; [done|].
  destruct (has_type ty x) eqn:Hx; simpl.
  - assert (E : has_type ty (f x) = true)
      by (unfold has_type in *; by rewrite Hu).
    by rewrite E.
  - by rewrite Hx, IH.
Qed.

Lemma setValue_frame (c : characteristic) (v : value) (w w' : World) :
  setValue PowerMeterService c v w = Some w' ->
  device w' = device w
  /\ constructed w' = constructed w
  /\ log w' = log w
  /\ List.map s_oid (services w') = List.map s_oid (services w)
  /\ List.filter (fun s => negb (has_type PowerMeterService s)) (services w') =
     List.filter (fun s => negb (has_type PowerMeterService s)) (services w).
Proof.
  unfold setValue. destruct (getService PowerMeterService w); [|done].
  intros [= <-]. simpl. repeat split.
  - by apply oids_update_first.
  - by apply filter_update_first_other.
Qed.

(** X15: a change handler of the live-metrics ability that goes through
    touches the first power-meter service of the accessory and nothing
    else: the device with its listeners, the record of constructions, the
    identities and the order of the services, and every service that is
    not a power-meter service are as before, and the log has one more
    line. *)
Theorem PowerMeter_handlers_frame (a : PowerMeterAbility.t) (newValue : value)
    (w w' : World) :
  PowerMeterAbility._consumptionChangeHandler a newValue w = Some w'
  \/ PowerMeterAbility._electricCurrentChangeHandler a newValue w = Some w'
  \/ PowerMeterAbility._voltageChangeHandler a newValue w = Some w' ->
  device w' = device w
  /\ constructed w' = constructed w
  /\ length (log w') = S (length (log w))
  /\ List.map s_oid (services w') = List.map s_oid (services w)
  /\ List.filter (fun s => negb (has_type PowerMeterService s)) (services w') =
     List.filter (fun s => negb (has_type PowerMeterService s)) (services w).
Proof.
  unfold PowerMeterAbility._consumptionChangeHandler,
    PowerMeterAbility._electricCurrentChangeHandler,
    PowerMeterAbility._voltageChangeHandler.
  destruct (PowerMeterAbility.bound a); [|intros [|[|]]; discriminate].
  intros [H|[H|H]]; apply setValue_frame in H as (Hd & Hc & Hl & Ho & Hf);
    (split; [exact Hd|]); (split; [exact Hc|]);
    (split; [rewrite Hl; simpl; rewrite length_app; simpl; lia|]);
    (split; [exact Ho | exact Hf]).
Qed.

Lemma PowerMeter_handlers_frame_witness :
  exists a w w',
    PowerMeterAbility.setup meter home = Some (a, w)
    /\ PowerMeterAbility._voltageChangeHandler a undefined w = Some w'
    /\ device w' = device w
    /\ List.map s_oid (services w') = [0; 1].
Proof.
  eexists _, _, _. split; [reflexivity|]. split; [reflexivity|].
  lazymatch goal with
  | |- device ?w' = device ?w /\ _ =>
      destruct (PowerMeter_handlers_frame
                  (PowerMeterAbility.with_super
                     (Ability.bind (PowerMeterAbility.super meter)) meter)
                  undefined w w' (or_intror (or_intror eq_refl)))
        as (Hd & _ & _ & Ho & _)
  end.
  split; [exact Hd|]. rewrite Ho. reflexivity.
Defined.

(** ** Order of the clamped values *)

Lemma clamp_Finite_mono (q1 q2 : Qc) :
  (q1 <= q2)%Qc ->
  exists r1 r2,
    Math_min (Math_max (Finite q1) (num_of_Z 0)) (num_of_Z 65535) = Finite r1
    /\ Math_min (Math_max (Finite q2) (num_of_Z 0)) (num_of_Z 65535) = Finite r2
    /\ (r1 <= r2)%Qc.
Proof.
  intros Hle. rewrite !clamp_Finite. unfold num_of_Z.
  pose proof zero_lt_65535 as H0.
  destruct (decide (q1 < Qc_of_Z 0)%Qc) as [L1|L1];
    [|destruct (decide (Qc_of_Z 65535 < q1)%Qc) as [G1|G1]];
    (destruct (decide (q2 < Qc_of_Z 0)%Qc) as [L2|L2];
     [|destruct (decide (Qc_of_Z 65535 < q2)%Qc) as [G2|G2]]);
    eexists _, _; (split; [reflexivity|]); (split; [reflexivity|]).
  - apply Qcle_refl.
  - by apply Qclt_le_weak.
  - by apply Qcnot_lt_le.
  - exfalso. apply (Qclt_not_le _ _ L2).
    apply Qclt_le_weak. eapply Qclt_le_trans; [|exact Hle].
    eapply Qclt_trans; [exact H0 | exact G1].
  - apply Qcle_refl.
  - exfalso. apply G2. eapply Qclt_le_trans; [exact G1 | exact Hle].
  - exfalso. apply L1. eapply Qcle_lt_trans; [exact Hle | exact L2].
  - by apply Qcnot_lt_le.
  - exact Hle.
Qed.

(** X16: the clamp keeps the order of the readings: of two finite
    consumption readings, the larger one never gives the smaller clamped
    value, in either ability. *)
Theorem consumption_is_monotone :
  (forall (a : PowerMeterAbility.t) (w1 w2 : World) (q1 q2 : Qc),
      get (device w1) (PowerMeterAbility._consumptionProperty a)
      = Num (Finite q1) ->
      get (device w2) (PowerMeterAbility._consumptionProperty a)
      = Num (Finite q2) ->
      (q1 <= q2)%Qc ->
      exists r1 r2,
        PowerMeterAbility.consumption a w1 = Finite r1
        /\ PowerMeterAbility.consumption a w2 = Finite r2
        /\ (r1 <= r2)%Qc)
  /\ (forall (a : PowerConsumptionAbility.t) (w1 w2 : World) (q1 q2 : Qc),
      get (device w1) (PowerConsumptionAbility._consumptionProperty a)
      = Num (Finite q1) ->
      get (device w2) (PowerConsumptionAbility._consumptionProperty a)
      = Num (Finite q2) ->
      (q1 <= q2)%Qc ->
      exists r1 r2,
        PowerConsumptionAbility.consumption a w1 = Finite r1
        /\ PowerConsumptionAbility.consumption a w2 = Finite r2
        /\ (r1 <= r2)%Qc).
Proof.
  split; intros a w1 w2 q1 q2 H1 H2 Hle.
  - unfold PowerMeterAbility.consumption. rewrite H1, H2.
    by apply clamp_Finite_mono.
  - unfold PowerConsumptionAbility.consumption. rewrite H1, H2.
    by apply clamp_Finite_mono.
Qed.

Lemma consumption_is_monotone_witness :
  exists r1 r2,
    PowerMeterAbility.consumption meter (reading (Num (num_of_Z (-5))))
    = Finite r1
    /\ PowerMeterAbility.consumption meter (reading (Num (num_of_Z 70000)))
       = Finite r2
    /\ (r1 <= r2)%Qc.
Proof.
  apply (proj1 consumption_is_monotone meter
           (reading (Num (num_of_Z (-5)))) (reading (Num (num_of_Z 70000)))
           (Qc_of_Z (-5)) (Qc_of_Z 70000)); [reflexivity | reflexivity |].
  by vm_compute.
Defined.

(** ** Runs of changes on the live-metrics ability *)

Lemma meter_change_step_spec (a : PowerMeterAbility.t) (c : meter_change)
    (w : World) (s : Service) :
  PowerMeterAbility.bound a = true ->
  PowerMeterAbility.service w = Some s ->
  exists w',
    meter_change_step a c w = Some w'
    /\ PowerMeterAbility.service w' =
       Some (mkService (s_oid s) (UUID s) (subtype s)
               (written s ++ [meter_write_of c]))
    /\ count_writes w' = S (count_writes w).
Proof.
  intros Hb Hs.
  destruct c as [v|v|v]; simpl;
    unfold PowerMeterAbility._consumptionChangeHandler,
      PowerMeterAbility._electricCurrentChangeHandler,
      PowerMeterAbility._voltageChangeHandler;
    rewrite Hb.
  - rewrite PowerMeter_consumption_eq.
    change (device (log_change _ v (set_property ?n v w)))
      with (device (set_property n v w)).
    rewrite get_set_property.
    destruct (PowerMeter_handler_spec ConsumptionCharacteristic
                (Num (clamp_spec (ToNumber v)))
                (PowerMeterAbility._consumptionProperty a) v
                (set_property (PowerMeterAbility._consumptionProperty a) v w)
                s Hs) as (w' & Hw' & Hg & Hc & _).
    by exists w'.
  - unfold PowerMeterAbility.electricCurrent.
    change (device (log_change _ v (set_property ?n v w)))
      with (device (set_property n v w)).
    rewrite get_set_property.
    destruct (PowerMeter_handler_spec ElectricCurrentCharacteristic v
                (ToString (PowerMeterAbility._electricCurrentProperty a)) v
                (set_property
                   (ToString (PowerMeterAbility._electricCurrentProperty a)) v w)
                s Hs) as (w' & Hw' & Hg & Hc & _).
    by exists w'.
  - unfold PowerMeterAbility.voltage.
    change (device (log_change _ v (set_property ?n v w)))
      with (device (set_property n v w)).
    rewrite get_set_property.
    destruct (PowerMeter_handler_spec VoltageCharacteristic v
                (ToString (PowerMeterAbility._voltageProperty a)) v
                (set_property
                   (ToString (PowerMeterAbility._voltageProperty a)) v w)
                s Hs) as (w' & Hw' & Hg & Hc & _).
    by exists w'.
Qed.

(** X17: on a bound live-metrics ability whose accessory has a power-meter
    service, a run of changes never fails and keeps that service in place;
    the service gets one write per change, in the order of the changes: the
    clamped value for a consumption change, the value as it is for an
    electric-current or a voltage change. *)
Theorem meter_changes_write_in_order (events : list meter_change)
    (a : PowerMeterAbility.t) (w : World) (s : Service) :
  PowerMeterAbility.bound a = true ->
  PowerMeterAbility.service w = Some s ->
  exists w',
    meter_changes events a w = Some w'
    /\ PowerMeterAbility.service w' =
       Some (mkService (s_oid s) (UUID s) (subtype s)
               (written s ++ List.map meter_write_of events))
    /\ count_writes w' = count_writes w + length events.
Proof.
  intros Hb. revert w s.
  induction events as [|c rest IH]; intros w s Hs.
  - exists w. simpl. rewrite app_nil_r. split; [done|].
    split; [by destruct s | lia].
  - destruct (meter_change_step_spec a c w s Hb Hs) as (w1 & Hw1 & Hs1 & Hc1).
    destruct (IH w1 _ Hs1) as (w' & Hw' & Hs' & Hc').
    exists w'. cbn [meter_changes]. rewrite Hw1.
    split; [exact Hw'|]. split.
    + rewrite Hs'. simpl. by rewrite <- app_assoc.
    + rewrite Hc', Hc1. simpl. lia.
Qed.

Lemma meter_changes_write_in_order_witness :
  exists a w s w' s',
    PowerMeterAbility.setup meter home = Some (a, w)
    /\ PowerMeterAbility.service w = Some s
    /\ meter_changes
         [VoltageChange (Num (num_of_Z 231));
          ConsumptionChange (Num (num_of_Z 70000));
          ConsumptionChange undefined] a w = Some w'
    /\ PowerMeterAbility.service w' = Some s'
    /\ written s' =
       written s ++
       [(VoltageCharacteristic, Num (num_of_Z 231));
        (ConsumptionCharacteristic, Num (num_of_Z 65535));
        (ConsumptionCharacteristic, Num NaN)].
Proof.
  destruct (PowerMeter_setup_attached meter home)
    as (a & w & Hs & Hb & _ & [s Hsv] & _).
  destruct (meter_changes_write_in_order
              [VoltageChange (Num (num_of_Z 231));
               ConsumptionChange (Num (num_of_Z 70000));
               ConsumptionChange undefined] a w s Hb Hsv)
    as (w' & Hw' & Hs' & _).
  eexists a, w, s, w', _. split; [exact Hs|]. split; [exact Hsv|].
  split; [exact Hw'|]. split; [exact Hs'|]. reflexivity.
Defined.
